(** * filefitness: integrity checks for .fit and .gpx activity files

    A shallow embedding of [filefitness.py] and the properties of its
    checkers, of the integrity evaluator and of the batch driver.

    Conventions of the embedding.
    - A Python [str] that the program builds or compares (file names, tags,
      log messages) is a [string]; its characters are read as code points
      below 256.  The text obtained by decoding a file is a list of code
      points ([list N]).
    - A Python [bytes] value is a [list byte].
    - A Python [int] is a [Z]; a finite [float] is a pair [(m, e)] that
      stands for [m * 2^e].
    - An exception is a value of [exn]; code that may raise and that writes
      to the logger is a function from the log so far to an outcome and the
      log afterwards ([py]).
    - The two parsing libraries ([fitparse], [gpxpy]), the file system and
      the processor count are not part of the program: they are variables
      of the section that holds the checkers. *)

From Stdlib Require Import ZArith NArith List Bool Lia.
From Stdlib Require Import Strings.String Strings.Ascii Strings.Byte.
From Stdlib Require Import DecimalString.
Import ListNotations.

Local Open Scope string_scope.
Local Open Scope Z_scope.

(** ** Python strings *)

Module PyStr.

(** [str(n)] for an [int]. *)
Definition of_int (z : Z) : string :=
  NilEmpty.string_of_int (Z.to_int z).

(** [c.lower()] for one character with code point below 256: the ASCII
    capitals and the Latin-1 capitals (0xC0-0xDE but the sign 0xD7)
    move up by 32. *)
Definition lower_char (c : ascii) : ascii :=
  let n := N_of_ascii c in
  if ((65 <=? n) && (n <=? 90))%N
     || ((192 <=? n) && (n <=? 222) && negb (n =? 215))%N
  then ascii_of_N (n + 32)
  else c.

(** [s.lower()] *)
Fixpoint lower (s : string) : string :=
  match s with
  | EmptyString => EmptyString
  | String c s' => String (lower_char c) (lower s')
  end.

(** [s.startswith(p)] *)
Fixpoint startswith (s p : string) {struct p} : bool :=
  match p, s with
  | EmptyString, _ => true
  | String _ _, EmptyString => false
  | String a p', String b s' => Ascii.eqb a b && startswith s' p'
  end.

(** [s.endswith(suf)]: some suffix of [s] is [suf]. *)
Fixpoint endswith (s suf : string) : bool :=
  String.eqb s suf
  || match s with
     | EmptyString => false
     | String _ s' => endswith s' suf
     end.

(** [sub in s]: [sub] starts some suffix of [s]. *)
Fixpoint contains (sub s : string) : bool :=
  startswith s sub
  || match s with
     | EmptyString => false
     | String _ s' => contains sub s'
     end.

(** [s.split(sep)] for a separator of one character; the result is
    never empty. *)
Fixpoint split (sep : ascii) (s : string) : list string :=
  match s with
  | EmptyString => [EmptyString]
  | String c s' =>
      if Ascii.eqb c sep then EmptyString :: split sep s'
      else match split sep s' with
           | [] => [String c EmptyString]
           | w :: ws => String c w :: ws
           end
  end.

(** [l[-1]] on a list of strings ([IndexError] cannot happen on the
    result of [split]). *)
Definition last_item (l : list string) : string := List.last l EmptyString.

End PyStr.

(** ** Exceptions and the effect monad *)

(** The exception classes the program names or lets through.  In
    [fitparse], [FitCRCError], [FitHeaderError] and [FitEOFError] derive
    from [FitParseError]; [ActivityDefective] derives from [Exception]
    alone and has no subclass.  [OtherException] is any class that the
    program never names ([OSError], a library's internal error, ...). *)
Inductive exn : Type :=
| ActivityDefective (arg : string)
| FitParseError (msg : string)
| FitCRCError (msg : string)
| FitHeaderError (msg : string)
| FitEOFError (msg : string)
| GPXXMLSyntaxException (msg : string)
| UnicodeDecodeError
| ZeroDivisionError
| OverflowError
| TypeError
| ValueError
| OtherException (cls msg : string).

(** [str(err)] for the exceptions whose text the program formats. *)
Definition exn_str (e : exn) : string :=
  match e with
  | ActivityDefective m | FitParseError m | FitCRCError m
  | FitHeaderError m | FitEOFError m | GPXXMLSyntaxException m => m
  | UnicodeDecodeError => "invalid utf-8"
  | ZeroDivisionError => "division by zero"
  | OverflowError => "integer division result too large for a float"
  | TypeError => "unsupported operand"
  | ValueError => "invalid literal for int() with base 10"
  | OtherException _ m => m
  end.

(** [isinstance(e, ActivityDefective)] *)
Definition is_ActivityDefective (e : exn) : bool :=
  match e with ActivityDefective _ => true | _ => false end.

(** [isinstance(e, FitHeaderError)] *)
Definition is_FitHeaderError (e : exn) : bool :=
  match e with FitHeaderError _ => true | _ => false end.

(** [isinstance(e, (FitCRCError, FitParseError, FitHeaderError,
    FitEOFError))] *)
Definition is_fit_error (e : exn) : bool :=
  match e with
  | FitParseError _ | FitCRCError _ | FitHeaderError _ | FitEOFError _ => true
  | _ => false
  end.

(** [isinstance(e, GPXXMLSyntaxException)] *)
Definition is_GPXXMLSyntaxException (e : exn) : bool :=
  match e with GPXXMLSyntaxException _ => true | _ => false end.

(** [isinstance(e, ZeroDivisionError)] *)
Definition is_ZeroDivisionError (e : exn) : bool :=
  match e with ZeroDivisionError => true | _ => false end.

Inductive outcome (A : Type) : Type :=
| Returned (a : A)
| Raised (e : exn).
Arguments Returned {A} a.
Arguments Raised {A} e.

(** The logger [LOG]: level DEBUG, so every record is emitted.  The log is
    the list of emitted records, oldest first (the time stamp that the
    formatter adds is left out). *)
Inductive level : Type := DEBUG | INFO | ERROR.
Definition record : Type := (level * string)%type.
Definition log : Type := list record.

Definition py (A : Type) : Type := log -> outcome A * log.

Definition ret {A} (a : A) : py A := fun l => (Returned a, l).
Definition raise {A} (e : exn) : py A := fun l => (Raised e, l).
Definition bind {A B} (c : py A) (k : A -> py B) : py B :=
  fun l => match c l with
           | (Returned a, l') => k a l'
           | (Raised e, l') => (Raised e, l')
           end.
Definition lift {A} (o : outcome A) : py A := fun l => (o, l).

Notation "x <- c ;; k" := (bind c (fun x => k))
  (at level 61, c at next level, right associativity).
Notation "c ;;; k" := (bind c (fun _ => k))
  (at level 61, right associativity).

(** [try: body / except <classes matched by catches> as err: handler err];
    an exception the clause does not match goes on. *)
Definition try_except {A} (body : py A) (catches : exn -> bool)
    (handler : exn -> py A) : py A :=
  fun l => match body l with
           | (Returned a, l') => (Returned a, l')
           | (Raised e, l') =>
               if catches e then handler e l' else (Raised e, l')
           end.

(** [try: body / except ...: handler / else: orelse]: the [else] suite runs
    when the body raised nothing, outside the reach of the [except]. *)
Definition try_except_else {A B} (body : py A) (catches : exn -> bool)
    (handler : exn -> py B) (orelse : py B) : py B :=
  fun l => match body l with
           | (Returned _, l') => orelse l'
           | (Raised e, l') =>
               if catches e then handler e l' else (Raised e, l')
           end.

(** The log [l] with one more record. *)
Definition logged (l : log) (lv : level) (msg : string) : log :=
  (l ++ [(lv, msg)])%list.

Definition LOG_emit (lv : level) (msg : string) : py unit :=
  fun l => (Returned tt, logged l lv msg).
Definition LOG_debug := LOG_emit DEBUG.
Definition LOG_info := LOG_emit INFO.
Definition LOG_error := LOG_emit ERROR.

(** [for x in xs: body x] *)
Fixpoint for_each {A} (xs : list A) (body : A -> py unit) : py unit :=
  match xs with
  | [] => ret tt
  | x :: xs' => body x ;;; for_each xs' body
  end.

(** ** Bytes: UTF-8 decoding and the MD5 digest *)

Module PyBytes.
Local Open Scope N_scope.

Definition is_cont (b : N) : bool := (0x80 <=? b) && (b <=? 0xBF).
Definition in_range (lo hi b : N) : bool := (lo <=? b) && (b <=? hi).
Definition low6 (b : N) : N := N.land b 0x3F.

(** The strict UTF-8 decoder on byte values: shortest forms only, no
    surrogates, nothing above U+10FFFF.  [None] is [UnicodeDecodeError]. *)
Fixpoint utf8_points (bs : list N) : option (list N) :=
  match bs with
  | [] => Some []
  | b0 :: r0 =>
      if b0 <? 0x80 then option_map (cons b0) (utf8_points r0)
      else if b0 <? 0xC2 then None
      else if b0 <? 0xE0 then
        match r0 with
        | b1 :: r1 =>
            if is_cont b1
            then option_map (cons (N.shiftl (N.land b0 0x1F) 6 + low6 b1))
                            (utf8_points r1)
            else None
        | _ => None
        end
      else if b0 <? 0xF0 then
        match r0 with
        | b1 :: b2 :: r2 =>
            let lo := if b0 =? 0xE0 then 0xA0 else 0x80 in
            let hi := if b0 =? 0xED then 0x9F else 0xBF in
            if in_range lo hi b1 && is_cont b2
            then option_map
                   (cons (N.shiftl (N.land b0 0x0F) 12
                          + N.shiftl (low6 b1) 6 + low6 b2))
                   (utf8_points r2)
            else None
        | _ => None
        end
      else if b0 <? 0xF5 then
        match r0 with
        | b1 :: b2 :: b3 :: r3 =>
            let lo := if b0 =? 0xF0 then 0x90 else 0x80 in
            let hi := if b0 =? 0xF4 then 0x8F else 0xBF in
            if in_range lo hi b1 && is_cont b2 && is_cont b3
            then option_map
                   (cons (N.shiftl (N.land b0 0x07) 18
                          + N.shiftl (low6 b1) 12
                          + N.shiftl (low6 b2) 6 + low6 b3))
                   (utf8_points r3)
            else None
        | _ => None
        end
      else None
  end.

(** [b.decode('utf-8')] *)
Definition decode_utf8 (b : list byte) : outcome (list N) :=
  match utf8_points (map Byte.to_N b) with
  | Some cps => Returned cps
  | None => Raised UnicodeDecodeError
  end.

(** *** [hashlib.md5(b).hexdigest()] (RFC 1321), on 32-bit words in [N] *)

Definition mask32 : N := 0xFFFFFFFF.
Definition add32 (a b : N) : N := N.land (a + b) mask32.
Definition not32 (a : N) : N := N.lxor (N.land a mask32) mask32.
Definition rotl32 (x c : N) : N :=
  N.land (N.lor (N.shiftl x c) (N.shiftr x (32 - c))) mask32.

Definition md5_K : list N :=
  [0xd76aa478; 0xe8c7b756; 0x242070db; 0xc1bdceee;
   0xf57c0faf; 0x4787c62a; 0xa8304613; 0xfd469501;
   0x698098d8; 0x8b44f7af; 0xffff5bb1; 0x895cd7be;
   0x6b901122; 0xfd987193; 0xa679438e; 0x49b40821;
   0xf61e2562; 0xc040b340; 0x265e5a51; 0xe9b6c7aa;
   0xd62f105d; 0x02441453; 0xd8a1e681; 0xe7d3fbc8;
   0x21e1cde6; 0xc33707d6; 0xf4d50d87; 0x455a14ed;
   0xa9e3e905; 0xfcefa3f8; 0x676f02d9; 0x8d2a4c8a;
   0xfffa3942; 0x8771f681; 0x6d9d6122; 0xfde5380c;
   0xa4beea44; 0x4bdecfa9; 0xf6bb4b60; 0xbebfbc70;
   0x289b7ec6; 0xeaa127fa; 0xd4ef3085; 0x04881d05;
   0xd9d4d039; 0xe6db99e5; 0x1fa27cf8; 0xc4ac5665;
   0xf4292244; 0x432aff97; 0xab9423a7; 0xfc93a039;
   0x655b59c3; 0x8f0ccc92; 0xffeff47d; 0x85845dd1;
   0x6fa87e4f; 0xfe2ce6e0; 0xa3014314; 0x4e0811a1;
   0xf7537e82; 0xbd3af235; 0x2ad7d2bb; 0xeb86d391].

Definition md5_S : list N :=
  [7; 12; 17; 22; 7; 12; 17; 22; 7; 12; 17; 22; 7; 12; 17; 22;
   5; 9; 14; 20; 5; 9; 14; 20; 5; 9; 14; 20; 5; 9; 14; 20;
   4; 11; 16; 23; 4; 11; 16; 23; 4; 11; 16; 23; 4; 11; 16; 23;
   6; 10; 15; 21; 6; 10; 15; 21; 6; 10; 15; 21; 6; 10; 15; 21].

Definition nthN (l : list N) (i : N) : N := nth (N.to_nat i) l 0.

(** The little-endian bytes of [x], [n] of them. *)
Fixpoint le_bytes (n : nat) (x : N) : list N :=
  match n with
  | O => []
  | S n' => N.land x 0xFF :: le_bytes n' (N.shiftr x 8)
  end.

Fixpoint le_word (bs : list N) : N :=
  match bs with
  | [] => 0
  | b :: r => b + N.shiftl (le_word r) 8
  end.

(** Padding: a 1 bit, zeros up to 56 modulo 64, the bit length on 64
    bits. *)
Definition md5_pad (msg : list N) : list N :=
  let len := N.of_nat (List.length msg) in
  let zeros := (55 + 64 - len mod 64) mod 64 in
  (msg ++ 0x80 :: repeat 0 (N.to_nat zeros)
       ++ le_bytes 8 (N.land (8 * len) 0xFFFFFFFFFFFFFFFF))%list.

(** [k] groups of [n] items. *)
Fixpoint groups {A} (n k : nat) (l : list A) : list (list A) :=
  match k with
  | O => []
  | S k' => firstn n l :: groups n k' (skipn n l)
  end.

Definition md5_words (block : list N) : list N :=
  map le_word (groups 4 16 block).

Definition md5_state : Type := (N * N * N * N)%type.

Definition md5_step (M : list N) (st : md5_state) (i : N) : md5_state :=
  let '(A, B, C, D) := st in
  let '(F, g) :=
    if i <? 16 then (N.lor (N.land B C) (N.land (not32 B) D), i)
    else if i <? 32 then
      (N.lor (N.land D B) (N.land (not32 D) C), (5 * i + 1) mod 16)
    else if i <? 48 then (N.lxor B (N.lxor C D), (3 * i + 5) mod 16)
    else (N.lxor C (N.lor B (not32 D)), (7 * i) mod 16) in
  let F' := add32 (add32 (add32 F A) (nthN md5_K i)) (nthN M g) in
  (D, add32 B (rotl32 F' (nthN md5_S i)), B, C).

Definition md5_block (st : md5_state) (block : list N) : md5_state :=
  let '(a0, b0, c0, d0) := st in
  let '(A, B, C, D) :=
    fold_left (md5_step (md5_words block))
              (map N.of_nat (seq 0 64)) st in
  (add32 a0 A, add32 b0 B, add32 c0 C, add32 d0 D).

Definition md5_init : md5_state :=
  (0x67452301, 0xefcdab89, 0x98badcfe, 0x10325476).

Definition md5_digest (msg : list N) : list N :=
  let padded := md5_pad msg in
  let '(a, b, c, d) :=
    fold_left md5_block (groups 64 (List.length padded / 64) padded) md5_init in
  (le_bytes 4 a ++ le_bytes 4 b ++ le_bytes 4 c ++ le_bytes 4 d)%list.

Definition hex_digit (n : N) : ascii :=
  ascii_of_N (if n <? 10 then 48 + n else 87 + n).

Fixpoint hex (bs : list N) : string :=
  match bs with
  | [] => EmptyString
  | b :: r =>
      String (hex_digit (b / 16)) (String (hex_digit (b mod 16)) (hex r))
  end.

Definition md5_hexdigest (b : list byte) : string :=
  hex (md5_digest (map Byte.to_N b)).

(** A [bytes] literal, for examples. *)
Definition of_string (s : string) : list byte := list_byte_of_string s.

End PyBytes.

(** ** Numbers: [int()], [sum], [/] and [round] *)

Module PyNum.

(** The white space that [int()] skips around a literal, for a code
    point below 256: the ASCII blanks 9-13 and 32, and the two Latin-1
    spaces 0x85 and 0xA0. *)
Definition isspace (c : ascii) : bool :=
  let n := N_of_ascii c in
  (((9 <=? n) && (n <=? 13)) || (n =? 32) || (n =? 133) || (n =? 160))%N.

Definition digit_of (c : ascii) : option Z :=
  let n := N_of_ascii c in
  if ((48 <=? n) && (n <=? 57))%N then Some (Z.of_N n - 48) else None.

Fixpoint lstrip (s : string) : string :=
  match s with
  | String c s' => if isspace c then lstrip s' else s
  | EmptyString => EmptyString
  end.

(** The digits of a literal, most significant first: a digit, then
    digits or single underscores each followed by a digit, then only
    white space up to the end.  [acc] is the value read so far. *)
Fixpoint digits (acc : Z) (s : string) : option Z :=
  match s with
  | EmptyString => Some acc
  | String c s' =>
      match digit_of c with
      | Some d => digits (10 * acc + d) s'
      | None =>
          if Ascii.eqb c "_" then
            match s' with
            | String c' s'' =>
                match digit_of c' with
                | Some d => digits (10 * acc + d) s''
                | None => None
                end
            | EmptyString => None
            end
          else match lstrip s with
               | EmptyString => Some acc
               | _ => None
               end
      end
  end.

(** A literal after the sign: it starts with a digit. *)
Definition unsigned_literal (s : string) : option Z :=
  match s with
  | String c s' =>
      match digit_of c with
      | Some d => digits d s'
      | None => None
      end
  | EmptyString => None
  end.

(** The number of decimal digits in [s]. *)
Fixpoint digit_count (s : string) : Z :=
  match s with
  | EmptyString => 0
  | String c s' =>
      match digit_of c with
      | Some _ => 1 + digit_count s'
      | None => digit_count s'
      end
  end.

(** [sys.int_info.default_max_str_digits]: the most digits that [int()]
    converts.  The program does not change the interpreter's setting. *)
Definition max_str_digits : Z := 4300.

(** [int(text)] in base 10, for the [text] of an XML element ([None]
    when the element is empty): [TypeError] for [None], [ValueError] for
    a text that is not an integer literal, and [ValueError] as well for
    a literal of more than [max_str_digits] digits (underscores, sign and
    white space are not counted, leading zeros are). *)
Definition int (text : option string) : outcome Z :=
  match text with
  | None => Raised TypeError
  | Some s =>
      let r :=
        match lstrip s with
        | String "+" s' => unsigned_literal s'
        | String "-" s' => option_map Z.opp (unsigned_literal s')
        | s' => unsigned_literal s'
        end in
      match r with
      | Some z =>
          if max_str_digits <? digit_count s then Raised ValueError
          else Returned z
      | None => Raised ValueError
      end
  end.

(** [sum(l)] on a list of [int]s. *)
Definition sum (l : list Z) : Z := fold_left Z.add l 0.

(** [sum(l)] on a list whose items are [int]s or [None]: adding [None]
    to the running total is a [TypeError]. *)
Fixpoint sum_values_from (acc : Z) (l : list (option Z)) : outcome Z :=
  match l with
  | [] => Returned acc
  | Some v :: l' => sum_values_from (acc + v) l'
  | None :: _ => Raised TypeError
  end.
Definition sum_values (l : list (option Z)) : outcome Z :=
  sum_values_from 0 l.

(** [len(l)] *)
Definition len {A} (l : list A) : Z := Z.of_nat (List.length l).

(** The integer nearest to [n / d] for [d > 0]; of two equally near,
    the even one. *)
Definition nearest_even (n d : Z) : Z :=
  let q := n / d in
  let r := n mod d in
  if 2 * r <? d then q
  else if d <? 2 * r then q + 1
  else if Z.even q then q else q + 1.

(** A finite binary64 value: [(m, e)] is [m * 2^e]. *)
Definition float : Type := (Z * Z)%type.

(** The quotient of [n] by [d * 2^e] (both positive), rounded down and
    rounded to nearest-even, [e] of either sign. *)
Definition scaled_num (n e : Z) : Z := if 0 <=? e then n else n * 2 ^ (- e).
Definition scaled_den (d e : Z) : Z := if 0 <=? e then d * 2 ^ e else d.

(** [a / b] on [int]s: the binary64 value nearest to the exact quotient
    (ties to the even significand, 53 bits, least exponent -1074);
    [OverflowError] when that is not finite. *)
Definition truediv (a b : Z) : outcome float :=
  if b =? 0 then Raised ZeroDivisionError
  else if a =? 0 then Returned (0, 0)
  else
    let n := Z.abs a in
    let d := Z.abs b in
    let e0 := Z.max (-1074) (Z.log2 n - Z.log2 d - 53) in
    let e := if 2 ^ 53 <=? scaled_num n e0 / scaled_den d e0
             then e0 + 1 else e0 in
    let m := nearest_even (scaled_num n e) (scaled_den d e) in
    if (0 <=? e) && (2 ^ 1024 <=? m * 2 ^ e) then Raised OverflowError
    else Returned (Z.sgn a * Z.sgn b * m, e).

(** [round(x)] for a finite [float], an [int]: nearest, ties to even. *)
Definition round (x : float) : Z :=
  let '(m, e) := x in
  if 0 <=? e then m * 2 ^ e else nearest_even m (2 ^ (- e)).

(** [round(total / count)] *)
Definition round_div (total count : Z) : outcome Z :=
  match truediv total count with
  | Returned x => Returned (round x)
  | Raised e => Raised e
  end.

End PyNum.

(** ** The data model *)

(** [io.BytesIO]: the bytes it holds and the position of the next read. *)
Record BytesIO : Type := { buffer : list byte; position : nat }.

(** [io.BytesIO(b)] *)
Definition BytesIO_of (b : list byte) : BytesIO :=
  {| buffer := b; position := 0 |}.

(** [f.getvalue()]: the whole buffer whatever the position, and the object
    as it is left. *)
Definition getvalue (f : BytesIO) : list byte * BytesIO := (buffer f, f).

(** The dataclass [Activity]. *)
Record Activity : Type := { name : string; fileobj : BytesIO }.

(** [Activity.extension] *)
Definition extension (self : Activity) : string :=
  PyStr.last_item (PyStr.split "." (name self)).

(** [Activity.md5sum]: the digest, and the activity as the call leaves
    it. *)
Definition md5sum (self : Activity) : string * Activity :=
  let '(value, f) := getvalue (fileobj self) in
  (PyBytes.md5_hexdigest value, {| name := name self; fileobj := f |}).

(** What [fitparse] hands to the program.  A field of a message has a
    name and a value, an [int] for the two fields read here or [None]
    when the file marks the value invalid; iterating a message yields
    its fields. *)
Record FieldData : Type := { field_name : string; value : option Z }.
Definition DataMessage : Type := list FieldData.

(** [fitfile.get_messages('record')] is a generator: it yields the
    messages [yielded] and then either stops or raises [failure]. *)
Record FitMessages : Type :=
  { yielded : list DataMessage; failure : option exn }.

(** What [gpxpy] hands to the program: tracks of segments of points, each
    point with its extension elements (XML elements with a tag, a text
    that may be absent, and children). *)
#[warnings="-register-all"]
Inductive Element : Type :=
| mkElement (tag : string) (text : option string) (children : list Element).
Definition tag (x : Element) : string := let '(mkElement t _ _) := x in t.
Definition text (x : Element) : option string :=
  let '(mkElement _ t _) := x in t.
Definition children (x : Element) : list Element :=
  let '(mkElement _ _ c) := x in c.

Record GPXTrackPoint : Type := { extensions : list Element }.
Record GPXTrackSegment : Type := { points : list GPXTrackPoint }.
Record GPXTrack : Type := { segments : list GPXTrackSegment }.
Record GPX : Type := { tracks : list GPXTrack }.

(** Code that may raise but does not log. *)
Definition obind {A B} (o : outcome A) (k : A -> outcome B) : outcome B :=
  match o with
  | Returned a => k a
  | Raised e => Raised e
  end.

(** A loop over [l] that updates [a] and stops at the first exception. *)
Fixpoint ofold {A B} (f : A -> B -> outcome A) (l : list B) (a : A)
  : outcome A :=
  match l with
  | [] => Returned a
  | x :: l' => obind (f a x) (ofold f l')
  end.

(** [any(l)] *)
Definition any (l : list bool) : bool := existsb (fun b => b) l.

(** ** The program *)

Section Program.

(** [FitFile(fileobj)] of [fitparse], with the 'record' messages of the
    object it returns. *)
Variable FitFile : BytesIO -> outcome FitMessages.
(** [gpxpy.parse(text)] *)
Variable gpxpy_parse : list N -> outcome GPX.
(** [open(file, 'rb')] followed by [f.read()] *)
Variable open_read : string -> outcome (list byte).
(** [mp.cpu_count()] *)
Variable cpu_count : Z.

Definition schema : string :=
  "{http://www.garmin.com/xmlschemas/TrackPointExtension/v1}".

(** The power and heart-rate readings gathered so far. *)
Definition readings : Type := (list Z * list Z)%type.

(** The body of [for kid in list(extension)]. *)
Definition gpx_kid (hr_readings : list Z) (kid : Element)
  : outcome (list Z) :=
  if String.eqb (tag kid) (schema ++ "hr")
  then obind (PyNum.int (text kid))
             (fun v => Returned (hr_readings ++ [v])%list)
  else Returned hr_readings.

(** The body of [for extension in point.extensions]. *)
Definition gpx_extension (acc : readings) (extension : Element)
  : outcome readings :=
  let '(power_readings, hr_readings) := acc in
  obind (if String.eqb (tag extension) "power"
         then obind (PyNum.int (text extension))
                    (fun v => Returned (power_readings ++ [v])%list)
         else Returned power_readings)
    (fun power_readings' =>
       obind (if String.eqb (tag extension)
                            (schema ++ "TrackPointExtension")
              then ofold gpx_kid (children extension) hr_readings
              else Returned hr_readings)
         (fun hr_readings' => Returned (power_readings', hr_readings'))).

(** The body of [for point in segment.points]. *)
Definition gpx_point (file_name : string) (acc : readings)
    (point : GPXTrackPoint) : outcome readings :=
  if PyStr.contains "ride" (PyStr.lower file_name)
  then ofold gpx_extension (extensions point) acc
  else Returned acc.

Definition gpx_segment (file_name : string) (acc : readings)
    (segment : GPXTrackSegment) : outcome readings :=
  ofold (gpx_point file_name) (points segment) acc.

Definition gpx_track (file_name : string) (acc : readings)
    (track : GPXTrack) : outcome readings :=
  ofold (gpx_segment file_name) (segments track) acc.

(** The three nested loops of [check_gpx]. *)
Definition gpx_readings (file_name : string) (gpx : GPX) : outcome readings :=
  ofold (gpx_track file_name) (tracks gpx) ([], []).

(** The message of the line that reports the averages. *)
Definition averages_line (file_name : string) (power hr : Z) : string :=
  file_name ++ " Average Power: " ++ PyStr.of_int power
            ++ ", Average HR: " ++ PyStr.of_int hr.

Definition check_gpx (gpx_file : Activity) : py unit :=
  gpx <- try_except
           (lift (obind (PyBytes.decode_utf8
                           (fst (getvalue (fileobj gpx_file))))
                        gpxpy_parse))
           is_GPXXMLSyntaxException
           (fun err =>
              raise (ActivityDefective
                       (name gpx_file ++ " - " ++ exn_str err))) ;;
  try_except
    (rs <- lift (gpx_readings (name gpx_file) gpx) ;;
     let '(power_readings, hr_readings) := rs in
     power <- lift (PyNum.round_div (PyNum.sum power_readings)
                                    (PyNum.len power_readings)) ;;
     hr <- lift (PyNum.round_div (PyNum.sum hr_readings)
                                 (PyNum.len hr_readings)) ;;
     LOG_info (averages_line (name gpx_file) power hr))
    is_ZeroDivisionError
    (fun _ => ret tt).

(** The body of [for record_data in record]. *)
Definition fit_field (acc : list (option Z) * list (option Z))
    (record_data : FieldData) : list (option Z) * list (option Z) :=
  let '(power_readings, hr_readings) := acc in
  if String.eqb (field_name record_data) "power"
  then ((power_readings ++ [value record_data])%list, hr_readings)
  else if String.eqb (field_name record_data) "heart_rate"
  then (power_readings, (hr_readings ++ [value record_data])%list)
  else acc.

(** The two nested loops of [check_fit] over the messages that the
    generator yields. *)
Definition fit_readings (msgs : list DataMessage)
  : list (option Z) * list (option Z) :=
  fold_left (fun acc record => fold_left fit_field record acc) msgs ([], []).

Definition check_fit (fit_file : Activity) : py unit :=
  fitfile <- try_except
               (lift (FitFile (fileobj fit_file)))
               is_FitHeaderError
               (fun _ =>
                  raise (ActivityDefective
                           (name fit_file ++ " truncated"))) ;;
  try_except
    (let '(power_readings, hr_readings) :=
       fit_readings (yielded fitfile) in
     match failure fitfile with
     | Some e => raise e
     | None => ret tt
     end ;;;
     power_total <- lift (PyNum.sum_values power_readings) ;;
     power <- lift (PyNum.round_div power_total
                                    (PyNum.len power_readings)) ;;
     hr_total <- lift (PyNum.sum_values hr_readings) ;;
     hr <- lift (PyNum.round_div hr_total (PyNum.len hr_readings)) ;;
     LOG_info (averages_line (name fit_file) power hr))
    is_fit_error
    (fun err => raise (ActivityDefective (exn_str err))).

(** The checker that [integritycheck] calls for an activity, if any. *)
Definition dispatch (activity : Activity) : py unit :=
  if String.eqb (extension activity) "fit" then check_fit activity
  else if String.eqb (extension activity) "gpx" then check_gpx activity
  else ret tt.

Definition integritycheck (activity : Activity) : py bool :=
  try_except_else
    (dispatch activity)
    is_ActivityDefective
    (fun err =>
       LOG_error (name activity ++ " " ++ exn_str err) ;;; ret false)
    (LOG_info (name activity ++ " Integrity OK") ;;; ret true).

(** The test of the first loop of [main]: the file is skipped. *)
Definition skipped (file : string) : bool :=
  negb (any [PyStr.endswith (PyStr.lower file) ".fit";
             PyStr.endswith (PyStr.lower file) ".gpx"]).

(** The first loop of [main]: [streams] as it grows. *)
Fixpoint read_targets (targets : list string) (streams : list Activity)
  : py (list Activity) :=
  match targets with
  | [] => ret streams
  | file :: targets' =>
      if skipped file
      then LOG_debug ("File skipped: " ++ file) ;;;
           read_targets targets' streams
      else content <- lift (open_read file) ;;
           read_targets targets'
             (streams ++ [{| name := file;
                             fileobj := BytesIO_of content |}])%list
  end.

(** The second loop of [main]: the verdicts are dropped. *)
Definition check_all (streams : list Activity) : py unit :=
  for_each streams (fun x => integritycheck x ;;; ret tt).

(** [main]; the unused worker pool is left out. *)
Definition main (targets : list string) : py unit :=
  LOG_debug ("CPU count: " ++ PyStr.of_int cpu_count) ;;;
  streams <- read_targets targets [] ;;
  check_all streams.

End Program.

(** ** Inputs for the examples *)

Module Samples.

(** A [fitparse] that reads a buffer as [msgs].  On an empty buffer it
    does what [fitparse] 1.2.0 does: it asks for the 12 bytes of the
    header, gets none and raises [FitEOFError]. *)
Definition FitFile_reads (msgs : FitMessages) (f : BytesIO)
  : outcome FitMessages :=
  match buffer f with
  | [] =>
      Raised (FitEOFError "Tried to read 12 bytes from .FIT file but got 0")
  | _ => Returned msgs
  end.

(** A [gpxpy] that reads every text as [doc]. *)
Definition gpxpy_reads (doc : GPX) (_ : list N) : outcome GPX :=
  Returned doc.

(** A [gpxpy] that finds every text malformed. *)
Definition gpxpy_rejects (msg : string) (_ : list N) : outcome GPX :=
  Raised (GPXXMLSyntaxException msg).

Definition no_messages : FitMessages := {| yielded := []; failure := None |}.

(** One record message with a heart rate and a cadence, no power. *)
Definition hr_only : FitMessages :=
  {| yielded := [[{| field_name := "heart_rate"; value := Some 120 |};
                  {| field_name := "cadence"; value := Some 85 |}]];
     failure := None |}.

(** Three record messages with powers 100, 150, 200 and heart rates. *)
Definition three_records : FitMessages :=
  {| yielded :=
       [[{| field_name := "power"; value := Some 100 |};
         {| field_name := "heart_rate"; value := Some 120 |}];
        [{| field_name := "power"; value := Some 150 |};
         {| field_name := "heart_rate"; value := Some 125 |}];
        [{| field_name := "power"; value := Some 200 |};
         {| field_name := "heart_rate"; value := Some 131 |}]];
     failure := None |}.

Definition power_element (s : string) : Element :=
  mkElement "power" (Some s) [].

Definition hr_element (s : string) : Element :=
  mkElement (schema ++ "TrackPointExtension") None
            [mkElement (schema ++ "hr") (Some s) []].

Definition gpx_of_points (ps : list GPXTrackPoint) : GPX :=
  {| tracks := [{| segments := [{| points := ps |}] |}] |}.

(** A track of two points, each with a power reading, no heart rate. *)
Definition power_only : GPX :=
  gpx_of_points [{| extensions := [power_element "100"] |};
                 {| extensions := [power_element "201"] |}].

(** A track of two points with power and heart rate. *)
Definition power_and_hr : GPX :=
  gpx_of_points
    [{| extensions := [power_element "100"; hr_element "120"] |};
     {| extensions := [power_element "201"; hr_element "131"] |}].

Definition some_bytes : list byte := PyBytes.of_string "<gpx></gpx>".

Definition activity (file : string) (content : list byte) : Activity :=
  {| name := file; fileobj := BytesIO_of content |}.

(** A directory with three files. *)
Definition open_read (file : string) : outcome (list byte) :=
  if String.eqb file "ride1.fit" then Returned some_bytes
  else if String.eqb file "lap2.txt" then Returned some_bytes
  else if String.eqb file "course.GPX" then Returned some_bytes
  else Raised (OtherException "FileNotFoundError" file).

End Samples.

(** ** What the first loop of [main] builds, in the words of the
    specification *)

(** The name ends in ".fit" or ".gpx", letter case apart. *)
Definition ends_in_fit_or_gpx (file : string) : Prop :=
  exists stem suffix,
    file = stem ++ suffix
    /\ (PyStr.lower suffix = ".fit" \/ PyStr.lower suffix = ".gpx").

(** The same as a test. *)
Definition eligible (file : string) : bool :=
  PyStr.endswith (PyStr.lower file) ".fit"
  || PyStr.endswith (PyStr.lower file) ".gpx".

(** What is read from a file that opens (and nothing from one that does
    not). *)
Definition content_of (open_read : string -> outcome (list byte))
    (file : string) : list byte :=
  match open_read file with
  | Returned content => content
  | Raised _ => []
  end.

(** The file opens and is read. *)
Definition readable (open_read : string -> outcome (list byte))
    (file : string) : Prop :=
  exists content, open_read file = Returned content.

(** The records built for the eligible targets, in order, given what is
    read from each. *)
Definition activities_of (content : string -> list byte)
    (targets : list string) : list Activity :=
  map (fun file => {| name := file; fileobj := BytesIO_of (content file) |})
      (filter eligible targets).

(** The debug notes for the other targets, in order. *)
Definition skip_notes (targets : list string) : log :=
  map (fun file => (DEBUG, "File skipped: " ++ file))
      (filter (fun file => negb (eligible file)) targets).

(** ** The readings that a track document contains, in the words of the
    specification *)

(** The extension elements of every point of every segment of every
    track, in document order. *)
Definition all_extensions (gpx : GPX) : list Element :=
  flat_map
    (fun track =>
       flat_map (fun segment => flat_map extensions (points segment))
                (segments track))
    (tracks gpx).

Definition is_power (x : Element) : bool := String.eqb (tag x) "power".
Definition is_hr_container (x : Element) : bool :=
  String.eqb (tag x) (schema ++ "TrackPointExtension").
Definition is_hr (kid : Element) : bool :=
  String.eqb (tag kid) (schema ++ "hr").

(** The texts of the elements tagged "power". *)
Definition power_texts (xs : list Element) : list (option string) :=
  map text (filter is_power xs).

(** The texts of the "hr" children of the vendor's containers. *)
Definition hr_texts (xs : list Element) : list (option string) :=
  flat_map
    (fun x =>
       if is_hr_container x then map text (filter is_hr (children x))
       else [])
    xs.

(** The document contains the power readings [ps] and the heart-rate
    readings [hs]: they are what the texts of its reading elements denote
    as integers, in order. *)
Definition contains_readings (gpx : GPX) (ps hs : list Z) : Prop :=
  map PyNum.int (power_texts (all_extensions gpx)) = map Returned ps
  /\ map PyNum.int (hr_texts (all_extensions gpx)) = map Returned hs.

(** The line of [LOG.info] with the averages, as a record of the log. *)
Definition reports_average_power (file_name : string) (power : Z) (l : log)
  : Prop :=
  exists hr, In (INFO, averages_line file_name power hr) l.

(** The property of a "ride" file as the specification words it: whenever
    the document contains at least one power reading, [check_gpx] reports
    [round(sum(p) / N)] as the average power. *)
Definition reports_mean_of_any_power (gpxpy_parse : list N -> outcome GPX)
    (a : Activity) : Prop :=
  forall cps gpx ps hs power,
    PyStr.contains "ride" (PyStr.lower (name a)) = true ->
    PyBytes.decode_utf8 (buffer (fileobj a)) = Returned cps ->
    gpxpy_parse cps = Returned gpx ->
    contains_readings gpx ps hs ->
    ps <> [] ->
    PyNum.round_div (PyNum.sum ps) (PyNum.len ps) = Returned power ->
    reports_average_power (name a) power (snd (check_gpx gpxpy_parse a [])).

(** ** A file that fails to parse, in the words of the specification *)

(** The bytes of the activity do not parse as a track document:
    [gpxpy.parse(bytes.decode('utf-8'))] raises. *)
Definition fails_to_parse (gpxpy_parse : list N -> outcome GPX)
    (a : Activity) : Prop :=
  exists e,
    obind (PyBytes.decode_utf8 (buffer (fileobj a))) gpxpy_parse = Raised e.

(** The property of a ".gpx" file as the specification words it: whenever
    the file fails to parse, [check_gpx] raises a classified failure and
    the evaluator returns false. *)
Definition refuses_what_fails_to_parse
    (FitFile : BytesIO -> outcome FitMessages)
    (gpxpy_parse : list N -> outcome GPX) (a : Activity) : Prop :=
  extension a = "gpx" ->
  fails_to_parse gpxpy_parse a ->
  (exists detail,
      fst (check_gpx gpxpy_parse a []) = Raised (ActivityDefective detail))
  /\ fst (integritycheck FitFile gpxpy_parse a []) = Returned false.

(** ** The script *)

(** [os.scandir(a)], iterated by the script: the loop receives the paths
    [entries] of the directory's entries and then either ends or gets the
    exception [scan_failure] (at once, with no entry, when [a] is not a
    directory or does not exist). *)
Record Scan : Type := { entries : list string; scan_failure : option exn }.

(** [isinstance(e, NotADirectoryError)]: a class of the operating system,
    which [exn] carries by its name. *)
Definition is_NotADirectoryError (e : exn) : bool :=
  match e with
  | OtherException cls _ => String.eqb cls "NotADirectoryError"
  | _ => false
  end.

(** The line that reports how many files were found. *)
Definition files_found_line (files : list string) : string :=
  PyStr.of_int (PyNum.len files) ++ " files were found for processing.".

Section Script.

Variable FitFile : BytesIO -> outcome FitMessages.
Variable gpxpy_parse : list N -> outcome GPX.
Variable open_read : string -> outcome (list byte).
Variable cpu_count : Z.
Variable scandir : string -> Scan.

(** The two nested loops under [try]: [files] as it grows. *)
Fixpoint scan_args (arg : list string) (files : list string)
  : outcome (list string) :=
  match arg with
  | [] => Returned files
  | a :: arg' =>
      match scan_failure (scandir a) with
      | None => scan_args arg' (files ++ entries (scandir a))%list
      | Some e => Raised e
      end
  end.

(** The block under [if __name__ == '__main__'], for the arguments
    [arg = sys.argv[1:]]. *)
Definition script (arg : list string) : py unit :=
  files <- try_except (lift (scan_args arg []))
             is_NotADirectoryError
             (fun _ => ret arg) ;;
  LOG_info (files_found_line files) ;;;
  main FitFile gpxpy_parse open_read cpu_count files.

End Script.

(** ** Further notions for the properties *)

(** The computation only adds to the log, and neither what it returns nor
    what it adds depends on the log it starts from. *)
Definition appends {A} (c : py A) : Prop :=
  forall l, c l = (fst (c []), (l ++ snd (c []))%list).

Definition is_power_field (d : FieldData) : bool :=
  String.eqb (field_name d) "power".
Definition is_heart_rate_field (d : FieldData) : bool :=
  String.eqb (field_name d) "heart_rate".

(** The values of the fields named "power", and of those named
    "heart_rate", over all messages in order. *)
Definition power_values (msgs : list DataMessage) : list (option Z) :=
  map value (filter is_power_field (List.concat msgs)).
Definition heart_rate_values (msgs : list DataMessage) : list (option Z) :=
  map value (filter is_heart_rate_field (List.concat msgs)).

(** A record of the log that reports averages for the file. *)
Definition averages_record (file_name : string) (r : record) : Prop :=
  exists power hr, r = (INFO, averages_line file_name power hr).

(** The record of the log that carries the verdict [b] for the file. *)
Definition verdict_record (file_name : string) (b : bool) (r : record)
  : Prop :=
  if b then r = (INFO, file_name ++ " Integrity OK")
  else exists detail, r = (ERROR, file_name ++ " " ++ detail).

(** What one evaluation adds to the log: the verdict, alone or after one
    record of averages. *)
Definition lines_of_check (file_name : string) (b : bool) (chunk : log)
  : Prop :=
  exists r,
    verdict_record file_name b r
    /\ (chunk = [r]
        \/ exists r0, averages_record file_name r0 /\ chunk = [r0; r]).

(** A byte value that no UTF-8 text contains. *)
Definition never_in_utf8 (b : N) : bool :=
  ((b =? 0xC0) || (b =? 0xC1) || (0xF5 <=? b))%N.

(** [c] is one of [0123456789abcdef]. *)
Definition is_lower_hex (c : ascii) : bool :=
  let n := N_of_ascii c in
  (((48 <=? n) && (n <=? 57)) || ((97 <=? n) && (n <=? 102)))%N.

Fixpoint all_chars (p : ascii -> bool) (s : string) : bool :=
  match s with
  | EmptyString => true
  | String c s' => p c && all_chars p s'
  end.

(** ** Further inputs for the examples *)

Module Cases.

(** Three records, then a CRC error. *)
Definition crc_failure : FitMessages :=
  {| yielded := yielded Samples.three_records;
     failure := Some (FitCRCError "CRC Mismatch") |}.

(** A [fitparse] that runs out of bytes while it opens the file. *)
Definition FitFile_eof (_ : BytesIO) : outcome FitMessages :=
  Raised (FitEOFError "Tried to read 12 bytes from .FIT file but got 0").

(** One record whose power is marked invalid. *)
Definition invalid_power : FitMessages :=
  {| yielded := [[{| field_name := "power"; value := None |};
                  {| field_name := "heart_rate"; value := Some 120 |}]];
     failure := None |}.

(** A point whose power is not an integer. *)
Definition decimal_power : GPX :=
  Samples.gpx_of_points
    [{| extensions := [Samples.power_element "12.5";
                       Samples.hr_element "120"] |}].

(** The start of a UTF-16 text: the byte order mark, then "<". *)
Definition utf16_bytes : list byte := [xff; xfe; x3c; x00].

(** A track file saved in Latin-1: the name "cafe" with an acute accent,
    the one byte 0xE9. *)
Definition latin1_bytes : list byte :=
  (PyBytes.of_string "<gpx><name>caf" ++ [xe9]
     ++ PyBytes.of_string "</name></gpx>")%list.

(** A track file whose "trk" element is never closed. *)
Definition mismatched_bytes : list byte :=
  PyBytes.of_string "<gpx><trk></gpx>".

Fixpoint same_text (s t : list N) : bool :=
  match s, t with
  | [], [] => true
  | c :: s', d :: t' => N.eqb c d && same_text s' t'
  | _, _ => false
  end.

(** A [gpxpy] that reads the text of [Samples.some_bytes] as a document
    without tracks, and reports in every other text what the XML parser
    reports in the text of [mismatched_bytes]. *)
Definition gpxpy_strict (text : list N) : outcome GPX :=
  if same_text text (map Byte.to_N Samples.some_bytes)
  then Returned {| tracks := [] |}
  else Raised (GPXXMLSyntaxException
                 "Error parsing XML: mismatched tag: line 1, column 12").

(** A directory with an empty file and another file. *)
Definition open_read (file : string) : outcome (list byte) :=
  if String.eqb file "empty.fit" then Returned []
  else Samples.open_read file.

(** ['1' * n] *)
Fixpoint ones (n : nat) : string :=
  match n with
  | O => EmptyString
  | S n' => String "1" (ones n')
  end.

(** A point whose power has 4301 digits. *)
Definition long_power : GPX :=
  Samples.gpx_of_points
    [{| extensions := [Samples.power_element (ones 4301);
                       Samples.hr_element "120"] |}].

Definition not_a_directory (a : string) : exn :=
  OtherException "NotADirectoryError" ("[Errno 20] Not a directory: " ++ a).

Definition no_such_file (a : string) : exn :=
  OtherException "FileNotFoundError"
                 ("[Errno 2] No such file or directory: " ++ a).

(** Two directories, one file, and nothing else. *)
Definition scandir (a : string) : Scan :=
  if String.eqb a "rides"
  then {| entries := ["rides/ride1.fit"; "rides/lap2.txt"];
          scan_failure := None |}
  else if String.eqb a "more"
  then {| entries := ["more/course.GPX"]; scan_failure := None |}
  else if String.eqb a "ride1.fit"
  then {| entries := []; scan_failure := Some (not_a_directory a) |}
  else {| entries := []; scan_failure := Some (no_such_file a) |}.

End Cases.

(** ** Strings *)

Lemma startswith_spec (s p : string) :
  PyStr.startswith s p = true <-> exists rest, s = p ++ rest.
Proof.
  revert s; induction p as [|a p IH]; intros s; simpl.
  - split; [intros _; now exists s | reflexivity].
  - destruct s as [|b s]; simpl.
    + split; [discriminate | intros [rest H]; discriminate].
    + rewrite andb_true_iff, Ascii.eqb_eq, IH. split.
      * intros [-> [rest ->]]. now exists rest.
      * intros [rest H]. injection H as -> ->.
        split; [reflexivity | now exists rest].
Qed.

Lemma endswith_nil (suf : string) :
  PyStr.endswith "" suf = String.eqb "" suf.
Proof. simpl. apply orb_false_r. Qed.

Lemma endswith_cons (c : ascii) (s suf : string) :
  PyStr.endswith (String c s) suf
  = String.eqb (String c s) suf || PyStr.endswith s suf.
Proof. reflexivity. Qed.

Lemma endswith_spec (s suf : string) :
  PyStr.endswith s suf = true <-> exists stem, s = stem ++ suf.
Proof.
  induction s as [|c s IH].
  - rewrite endswith_nil, String.eqb_eq. split.
    + intros <-. now exists "".
    + intros [[|c stem] H]; simpl in H; [assumption | discriminate].
  - rewrite endswith_cons, orb_true_iff, String.eqb_eq, IH. split.
    + intros [<- | [stem ->]]; [now exists "" | now exists (String c stem)].
    + intros [[|c' stem] H]; simpl in H.
      * now left.
      * injection H as <- ->. right. now exists stem.
Qed.

Lemma lower_app (s t : string) :
  PyStr.lower (s ++ t) = PyStr.lower s ++ PyStr.lower t.
Proof.
  induction s as [|c s IH]; simpl; [reflexivity | now rewrite IH].
Qed.

Lemma lower_length (s : string) :
  String.length (PyStr.lower s) = String.length s.
Proof.
  induction s as [|c s IH]; simpl; [reflexivity | now rewrite IH].
Qed.

Lemma app_length_string (s t : string) :
  String.length (s ++ t) = (String.length s + String.length t)%nat.
Proof.
  induction s as [|c s IH]; simpl; [reflexivity | now rewrite IH].
Qed.

Lemma app_inv_length (s t s' t' : string) :
  s ++ t = s' ++ t' -> String.length s = String.length s' ->
  s = s' /\ t = t'.
Proof.
  revert s'; induction s as [|c s IH]; intros [|c' s'] H L;
    simpl in *; try discriminate.
  - now split.
  - injection H as -> H. injection L as L.
    destruct (IH _ H L) as [-> ->]. now split.
Qed.

(** A lowered name that ends in [suf] is a name whose own ending lowers to
    [suf]. *)
Lemma lower_endswith (file suf : string) :
  PyStr.endswith (PyStr.lower file) suf = true
  <-> exists stem suffix, file = stem ++ suffix /\ PyStr.lower suffix = suf.
Proof.
  rewrite endswith_spec. split.
  - intros [stem H].
    assert (L : (String.length stem <= String.length file)%nat).
    { rewrite <- (lower_length file), H, app_length_string. lia. }
    exists (substring 0 (String.length stem) file),
           (substring (String.length stem)
                      (String.length file - String.length stem) file).
    assert (E : file = substring 0 (String.length stem) file
                       ++ substring (String.length stem)
                            (String.length file - String.length stem) file).
    { clear H. revert L. generalize (String.length stem) as n.
      induction file as [|c f IH]; intros [|n] L; simpl in *;
        try reflexivity; try lia.
      - f_equal. clear. induction f as [|c f IH]; simpl; [reflexivity|].
        now rewrite <- IH.
      - f_equal. apply IH. lia. }
    split; [exact E|].
    rewrite E in H at 1. rewrite lower_app in H.
    apply app_inv_length in H; [apply H|].
    rewrite lower_length.
    clear -L. revert L. generalize (String.length stem) as n.
    induction file as [|c f IH]; intros [|n] L; simpl in *;
      try reflexivity; try lia.
    f_equal. apply IH. lia.
  - intros [stem [suffix [-> <-]]]. exists (PyStr.lower stem).
    apply lower_app.
Qed.

(** [eligible] is the test of [ends_in_fit_or_gpx], and [skipped] is its
    negation. *)
Lemma eligible_spec (file : string) :
  eligible file = true <-> ends_in_fit_or_gpx file.
Proof.
  unfold eligible, ends_in_fit_or_gpx.
  rewrite orb_true_iff, !lower_endswith. split.
  - intros [[stem [suffix [E L]]] | [stem [suffix [E L]]]];
      exists stem, suffix; auto.
  - intros [stem [suffix [E [L | L]]]]; [left | right];
      exists stem, suffix; auto.
Qed.

Lemma skipped_eligible (file : string) : skipped file = negb (eligible file).
Proof.
  unfold skipped, eligible, any. simpl. now rewrite orb_false_r.
Qed.


(** ** Rounding *)

Lemma nearest_even_spec (n d : Z) :
  0 < d ->
  - d <= 2 * (n - PyNum.nearest_even n d * d) <= d
  /\ (Z.abs (2 * (n - PyNum.nearest_even n d * d)) = d ->
      Z.even (PyNum.nearest_even n d) = true).
Proof.
  intros Hd. unfold PyNum.nearest_even.
  pose proof (Z.div_mod n d ltac:(lia)) as E.
  pose proof (Z.mod_pos_bound n d Hd) as B.
  set (q := n / d) in *. set (r := n mod d) in *.
  destruct (Z.ltb_spec (2 * r) d); [|destruct (Z.ltb_spec d (2 * r))].
  - split; [nia | intros A; nia].
  - split; [nia | intros A; nia].
  - assert (2 * r = d) by lia.
    destruct (Z.even q) eqn:Ev.
    + split; [nia | auto].
    + split; [nia | intros _].
      rewrite Z.even_add, Ev. reflexivity.
Qed.

Lemma nearest_even_unique (n d q : Z) :
  0 < d ->
  - d <= 2 * (n - q * d) <= d ->
  (Z.abs (2 * (n - q * d)) = d -> Z.even q = true) ->
  q = PyNum.nearest_even n d.
Proof.
  intros Hd Hq Tq.
  destruct (nearest_even_spec n d Hd) as [Hp Tp].
  set (p := PyNum.nearest_even n d) in *.
  assert (U : (q - p) * d <= d) by lia.
  assert (L : - d <= (q - p) * d) by lia.
  assert (C : q = p \/ q = p + 1 \/ q = p - 1) by nia.
  destruct C as [C | [C | C]]; [assumption | exfalso | exfalso].
  - assert (Z.even q = true) by (apply Tq; nia).
    assert (Z.even p = true) by (apply Tp; nia).
    subst q. rewrite Z.even_add in *. 
    destruct (Z.even p); simpl in *; congruence.
  - assert (Z.even q = true) by (apply Tq; nia).
    assert (Z.even p = true) by (apply Tp; nia).
    subst q. rewrite Z.even_sub in *.
    destruct (Z.even p); simpl in *; congruence.
Qed.

Lemma nearest_even_opp (n d : Z) :
  0 < d -> PyNum.nearest_even (- n) d = - PyNum.nearest_even n d.
Proof.
  intros Hd. symmetry. apply nearest_even_unique; [assumption | |].
  - destruct (nearest_even_spec n d Hd) as [H _]. nia.
  - destruct (nearest_even_spec n d Hd) as [_ T]. intros A.
    rewrite Z.even_opp. apply T. lia.
Qed.

Lemma nearest_even_exact (q d : Z) :
  0 < d -> PyNum.nearest_even (q * d) d = q.
Proof.
  intros Hd. symmetry. apply nearest_even_unique; [assumption | lia | lia].
Qed.

(** Rounding to a multiple of [2^-k] first does not change the nearest
    integer, as long as the divisor is below [2^k]. *)
Lemma nearest_even_twice (a b k : Z) :
  0 < b -> 1 <= k -> b < 2 ^ k ->
  PyNum.nearest_even (PyNum.nearest_even (a * 2 ^ k) b) (2 ^ k)
  = PyNum.nearest_even a b.
Proof.
  intros Hb Hk Hlt. symmetry.
  assert (Hp : 0 < 2 ^ k) by (apply Z.pow_pos_nonneg; lia).
  destruct (nearest_even_spec a b Hb) as [Hq Tq].
  destruct (nearest_even_spec (a * 2 ^ k) b Hb) as [Ht Tt].
  set (q := PyNum.nearest_even a b) in *.
  set (t := PyNum.nearest_even (a * 2 ^ k) b) in *.
  set (P := 2 ^ k) in *.
  assert (HP2 : P = 2 * 2 ^ (k - 1)).
  { unfold P. replace k with (1 + (k - 1)) at 1 by lia.
    rewrite Z.pow_add_r by lia. reflexivity. }
  set (h := 2 ^ (k - 1)) in *.
  set (D := a - q * b) in *.
  set (eps := a * P - t * b) in *.
  assert (Hid : (t - q * P) * b = D * P - eps) by (unfold D, eps; ring).
  assert (Cases : Z.abs (2 * D) <= b - 1 \/ 2 * D = b \/ 2 * D = - b) by lia.
  assert (Tie : 2 * D = b \/ 2 * D = - b -> eps = 0).
  { intros C.
    assert (DP : D * P = 2 * D * h) by (rewrite HP2; ring).
    destruct C as [C | C]; rewrite C in DP.
    - assert (E : eps = b * (h - (t - q * P))) by lia.
      assert (h - (t - q * P) = 0) by nia. nia.
    - assert (E : eps = b * (- h - (t - q * P))) by lia.
      assert (- h - (t - q * P) = 0) by nia. nia. }
  apply nearest_even_unique; [assumption | |].
  - destruct Cases as [C | C].
    + assert (Z.abs (D * P) <= (b - 1) * h).
      { rewrite HP2. replace (D * (2 * h)) with (2 * D * h) by ring.
        rewrite Z.abs_mul, (Z.abs_eq h) by lia.
        apply Z.mul_le_mono_nonneg_r; lia. }
      assert (Z.abs ((t - q * P) * b) <= (b - 1) * h + b) by lia.
      assert (2 * Z.abs (t - q * P) * b <= P * b).
      { rewrite Z.abs_mul, (Z.abs_eq b) in * by lia. nia. }
      assert (2 * Z.abs (t - q * P) <= P) by nia.
      lia.
    + rewrite (Tie C) in Hid.
      assert (DP : D * P = 2 * D * h) by (rewrite HP2; ring).
      destruct C as [C | C]; rewrite C in DP; nia.
  - intros A. destruct Cases as [C | C]; [exfalso | apply Tq; lia].
    assert (Z.abs (D * P) <= (b - 1) * h).
    { rewrite HP2. replace (D * (2 * h)) with (2 * D * h) by ring.
      rewrite Z.abs_mul, (Z.abs_eq h) by lia.
      apply Z.mul_le_mono_nonneg_r; lia. }
    assert (Z.abs ((t - q * P) * b) <= (b - 1) * h + b) by lia.
    assert (2 * Z.abs (t - q * P) * b < P * b).
    { rewrite Z.abs_mul, (Z.abs_eq b) in * by lia. nia. }
    assert (2 * Z.abs (t - q * P) < P) by nia.
    lia.
Qed.

(** The same when the divisor is not below [2^k] but the dividend is far
    below it. *)
Lemma nearest_even_twice_small (n b k : Z) :
  0 <= n < 2 ^ 52 -> 0 < b -> 1 <= k -> b < 2 ^ k \/ 54 <= k ->
  PyNum.nearest_even (PyNum.nearest_even (n * 2 ^ k) b) (2 ^ k)
  = PyNum.nearest_even n b.
Proof.
  intros Hn Hb Hk [Hlt | Hbig]; [now apply nearest_even_twice|].
  destruct (Z.lt_ge_cases b (2 ^ k)) as [Hlt | Hge];
    [now apply nearest_even_twice|].
  assert (Hp : 2 ^ 54 <= 2 ^ k) by (apply Z.pow_le_mono_r; lia).
  assert (H52 : 2 ^ 54 = 4 * 2 ^ 52) by reflexivity.
  destruct (nearest_even_spec (n * 2 ^ k) b Hb) as [Ht _].
  set (t := PyNum.nearest_even (n * 2 ^ k) b) in *.
  set (P := 2 ^ k) in *.
  assert (T0 : 0 <= t) by nia.
  assert (T1 : t <= n) by nia.
  transitivity 0.
  - symmetry. apply nearest_even_unique; [lia | lia | lia].
  - apply nearest_even_unique; [lia | lia | lia].
Qed.

Lemma log2_lt (n k : Z) : 0 < n -> n < 2 ^ k -> Z.log2 n < k.
Proof. intros Hn H. now apply Z.log2_lt_pow2. Qed.

(** The exponent that [truediv] picks for a dividend below [2^52] is
    negative, and either the divisor is below [2^(-e)] or the exponent is
    the least one. *)
Lemma truediv_exponent (n d : Z) :
  0 < n < 2 ^ 52 -> 0 < d ->
  let e0 := Z.max (-1074) (Z.log2 n - Z.log2 d - 53) in
  forall e, e = e0 \/ e = e0 + 1 ->
            e < 0 /\ (d < 2 ^ (- e) \/ 54 <= - e).
Proof.
  intros Hn Hd e0 e He.
  assert (Ln : Z.log2 n < 52) by (apply log2_lt; lia).
  assert (Ld : 0 <= Z.log2 d) by apply Z.log2_nonneg.
  destruct (Z.log2_spec d Hd) as [_ Ud].
  assert (E0 : e0 <= -2) by (unfold e0; lia).
  split; [lia|].
  destruct (Z.le_gt_cases (-1074) (Z.log2 n - Z.log2 d - 53)) as [A | B].
  - left. assert (e0 = Z.log2 n - Z.log2 d - 53) by (unfold e0; lia).
    apply Z.lt_le_trans with (2 ^ Z.succ (Z.log2 d)); [assumption|].
    apply Z.pow_le_mono_r; lia.
  - right. assert (e0 = -1074) by (unfold e0; lia). lia.
Qed.

(** [round(a / b)] is the integer nearest to the exact quotient, ties to
    even, for a dividend below [2^52] in absolute value: the binary64
    quotient in between does not show. *)
Lemma round_div_exact (a b : Z) :
  0 < b -> Z.abs a < 2 ^ 52 ->
  PyNum.round_div a b = Returned (PyNum.nearest_even a b).
Proof.
  intros Hb Ha. unfold PyNum.round_div, PyNum.truediv.
  destruct (Z.eqb_spec b 0) as [|_]; [lia|].
  destruct (Z.eqb_spec a 0) as [->|Hnz].
  - simpl. f_equal. symmetry. apply (nearest_even_exact 0 b Hb).
  - set (n := Z.abs a). set (d := Z.abs b).
    assert (Hd : d = b) by (unfold d; lia).
    assert (Hn : 0 < n < 2 ^ 52) by (unfold n; lia).
    set (e0 := Z.max (-1074) (Z.log2 n - Z.log2 d - 53)).
    set (e := if 2 ^ 53 <=? PyNum.scaled_num n e0 / PyNum.scaled_den d e0
              then e0 + 1 else e0).
    assert (He : e = e0 \/ e = e0 + 1).
    { unfold e. destruct (2 ^ 53 <=? _); auto. }
    destruct (truediv_exponent n d Hn ltac:(lia) e He) as [Neg Small].
    unfold PyNum.scaled_num, PyNum.scaled_den.
    destruct (Z.leb_spec 0 e) as [|_]; [lia|].
    cbn [andb]. unfold PyNum.round.
    destruct (Z.leb_spec 0 e) as [|_]; [lia|].
    f_equal. rewrite Hd in *.
    assert (Sb : Z.sgn b = 1) by (apply Z.sgn_pos; lia).
    rewrite Sb, Z.mul_1_r.
    assert (Hk : 1 <= - e) by lia.
    assert (Hp : 0 < 2 ^ (- e)) by (apply Z.pow_pos_nonneg; lia).
    destruct (Z.lt_trichotomy a 0) as [Lt | [Eq | Gt]]; [|lia|].
    + rewrite (Z.sgn_neg a Lt).
      replace (-1 * PyNum.nearest_even (n * 2 ^ (- e)) b)
        with (- PyNum.nearest_even (n * 2 ^ (- e)) b) by ring.
      rewrite nearest_even_opp by assumption.
      rewrite (nearest_even_twice_small n b (- e)) by (try lia; assumption).
      rewrite <- nearest_even_opp by assumption.
      f_equal. unfold n. lia.
    + rewrite (Z.sgn_pos a Gt), Z.mul_1_l.
      rewrite (nearest_even_twice_small n b (- e)) by (try lia; assumption).
      f_equal. unfold n. lia.
Qed.

Lemma round_div_zero (total : Z) :
  PyNum.round_div total 0 = Raised ZeroDivisionError.
Proof. reflexivity. Qed.

Lemma len_positive {A} (l : list A) : l <> [] -> 0 < PyNum.len l.
Proof. destruct l; [congruence | intros _; unfold PyNum.len; simpl; lia]. Qed.

(** ** The loops of [check_gpx] *)

Lemma ofold_app {A B} (f : A -> B -> outcome A) (xs ys : list B) (acc : A) :
  ofold f (xs ++ ys) acc = obind (ofold f xs acc) (ofold f ys).
Proof.
  revert acc; induction xs as [|x xs IH]; intros acc; simpl; [reflexivity|].
  destruct (f acc x); simpl; [apply IH | reflexivity].
Qed.

Lemma ofold_ext {A B} (f g : A -> B -> outcome A) (xs : list B) (acc : A) :
  (forall a x, f a x = g a x) -> ofold f xs acc = ofold g xs acc.
Proof.
  intros H. revert acc; induction xs as [|x xs IH]; intros acc; simpl;
    [reflexivity|].
  rewrite H. destruct (g acc x); simpl; [apply IH | reflexivity].
Qed.

Lemma ofold_flat_map {A B C} (f : A -> B -> outcome A) (g : C -> list B)
    (xs : list C) (acc : A) :
  ofold f (flat_map g xs) acc = ofold (fun a x => ofold f (g x) a) xs acc.
Proof.
  revert acc; induction xs as [|x xs IH]; intros acc; simpl; [reflexivity|].
  rewrite ofold_app. destruct (ofold f (g x) acc); simpl;
    [apply IH | reflexivity].
Qed.

(** With "ride" in the name, the three loops visit the extension elements
    in document order. *)
Lemma gpx_readings_ride (file_name : string) (gpx : GPX) :
  PyStr.contains "ride" (PyStr.lower file_name) = true ->
  gpx_readings file_name gpx
  = ofold gpx_extension (all_extensions gpx) ([], []).
Proof.
  intros H. unfold gpx_readings, all_extensions.
  rewrite ofold_flat_map. apply ofold_ext. intros acc track.
  unfold gpx_track. rewrite ofold_flat_map. apply ofold_ext.
  intros acc' segment. unfold gpx_segment. rewrite ofold_flat_map.
  apply ofold_ext. intros acc'' point. unfold gpx_point. now rewrite H.
Qed.

Lemma map_Returned_inj {A} (xs ys : list A) :
  map (@Returned A) xs = map (@Returned A) ys -> xs = ys.
Proof.
  revert ys; induction xs as [|x xs IH]; intros [|y ys] H;
    simpl in H; try discriminate; [reflexivity|].
  injection H as -> H. f_equal. now apply IH.
Qed.

(** The inner loop gathers the integers that the texts of the "hr"
    children denote, and returns exactly when all of them denote one. *)
Lemma gpx_kids_spec (kids : list Element) (h hs : list Z) :
  ofold gpx_kid kids h = Returned hs
  <-> exists hs', hs = (h ++ hs')%list
                  /\ map PyNum.int (map text (filter is_hr kids))
                     = map Returned hs'.
Proof.
  revert h; induction kids as [|kid kids IH]; intros h; simpl.
  - split.
    + intros [= <-]. exists []. now rewrite app_nil_r.
    + intros [[|x hs'] [-> E]]; [now rewrite app_nil_r | discriminate].
  - unfold gpx_kid at 1. unfold is_hr at 1.
    destruct (String.eqb (tag kid) (schema ++ "hr")); simpl.
    + destruct (PyNum.int (text kid)) as [v|e]; simpl.
      * rewrite IH. split.
        -- intros [hs' [-> E]]. exists (v :: hs').
           rewrite <- app_assoc. simpl. split; [reflexivity | now rewrite E].
        -- intros [[|x hs'] [-> E]]; [discriminate|].
           simpl in E. injection E as <- E. exists hs'.
           rewrite <- app_assoc. now split.
      * split; [discriminate|].
        intros [[|x hs'] [_ E]]; discriminate.
    + apply IH.
Qed.

Lemma power_texts_cons (x : Element) (xs : list Element) :
  power_texts (x :: xs)
  = ((if is_power x then [text x] else []) ++ power_texts xs)%list.
Proof. unfold power_texts. simpl. now destruct (is_power x). Qed.

Lemma hr_texts_cons (x : Element) (xs : list Element) :
  hr_texts (x :: xs)
  = ((if is_hr_container x then map text (filter is_hr (children x))
      else []) ++ hr_texts xs)%list.
Proof. reflexivity. Qed.

(** The readings that one extension element contributes. *)
Lemma gpx_extension_spec (x : Element) (p h p1 h1 : list Z) :
  gpx_extension (p, h) x = Returned (p1, h1)
  <-> exists dp dh,
      p1 = (p ++ dp)%list /\ h1 = (h ++ dh)%list
      /\ map PyNum.int (if is_power x then [text x] else [])
         = map Returned dp
      /\ map PyNum.int
           (if is_hr_container x then map text (filter is_hr (children x))
            else [])
         = map Returned dh.
Proof.
  unfold gpx_extension.
  change (String.eqb (tag x) "power") with (is_power x).
  change (String.eqb (tag x) (schema ++ "TrackPointExtension"))
    with (is_hr_container x).
  split.
  - intros H.
    destruct (if is_power x then _ else _) as [p'|e] eqn:Hp;
      [simpl in H | discriminate].
    destruct (if is_hr_container x then _ else _) as [h'|e] eqn:Hh;
      [simpl in H | discriminate].
    injection H as <- <-.
    assert (exists dp, p' = (p ++ dp)%list
                       /\ map PyNum.int (if is_power x then [text x] else [])
                          = map Returned dp) as [dp [-> Ep]].
    { destruct (is_power x).
      - destruct (PyNum.int (text x)) as [v|e] eqn:Ev; simpl in Hp;
          [|discriminate].
        injection Hp as <-. exists [v]. simpl. now rewrite Ev.
      - injection Hp as <-. exists []. now rewrite app_nil_r. }
    assert (exists dh, h' = (h ++ dh)%list
                       /\ map PyNum.int
                            (if is_hr_container x
                             then map text (filter is_hr (children x))
                             else [])
                          = map Returned dh) as [dh [-> Eh]].
    { destruct (is_hr_container x).
      - now apply gpx_kids_spec.
      - injection Hh as <-. exists []. now rewrite app_nil_r. }
    exists dp, dh. auto.
  - intros [dp [dh [-> [-> [Ep Eh]]]]].
    assert (Hp : (if is_power x
                  then obind (PyNum.int (text x))
                             (fun v => Returned (p ++ [v])%list)
                  else Returned p) = Returned (p ++ dp)%list).
    { destruct (is_power x).
      - destruct dp as [|v [|w dp]]; simpl in Ep; try discriminate.
        injection Ep as ->. reflexivity.
      - destruct dp; [now rewrite app_nil_r | discriminate]. }
    assert (Hh : (if is_hr_container x
                  then ofold gpx_kid (children x) h
                  else Returned h) = Returned (h ++ dh)%list).
    { destruct (is_hr_container x).
      - apply gpx_kids_spec. now exists dh.
      - destruct dh; [now rewrite app_nil_r | discriminate]. }
    rewrite Hp. simpl. rewrite Hh. reflexivity.
Qed.

Lemma map_Returned_app {A} (f : option string -> outcome A)
    (ts us : list (option string)) (xs : list A) :
  map f (ts ++ us)%list = map Returned xs
  <-> exists ys zs, xs = (ys ++ zs)%list
                    /\ map f ts = map Returned ys
                    /\ map f us = map Returned zs.
Proof.
  rewrite map_app. split.
  - revert xs. induction ts as [|t ts IH]; intros xs H; simpl in *.
    + exists [], xs. auto.
    + destruct xs as [|x xs]; [discriminate|]. simpl in H.
      injection H as Hx H. destruct (IH xs H) as [ys [zs [-> [E1 E2]]]].
      exists (x :: ys), zs. simpl. rewrite Hx, E1. auto.
  - intros [ys [zs [-> [E1 E2]]]]. now rewrite E1, E2, map_app.
Qed.

(** The loop over the extension elements gathers the integers that the
    texts of the reading elements denote, and returns exactly when all of
    them denote one. *)
Lemma gpx_extensions_spec (xs : list Element) (p h ps hs : list Z) :
  ofold gpx_extension xs (p, h) = Returned (ps, hs)
  <-> exists ps' hs',
      ps = (p ++ ps')%list /\ hs = (h ++ hs')%list
      /\ map PyNum.int (power_texts xs) = map Returned ps'
      /\ map PyNum.int (hr_texts xs) = map Returned hs'.
Proof.
  revert p h; induction xs as [|x xs IH]; intros p h.
  - simpl. split.
    + intros [= <- <-]. exists [], []. now rewrite !app_nil_r.
    + intros [[|a ps'] [[|b hs'] [-> [-> [E1 E2]]]]]; try discriminate.
      now rewrite !app_nil_r.
  - cbn [ofold]. rewrite power_texts_cons, hr_texts_cons. split.
    + intros H.
      destruct (gpx_extension (p, h) x) as [[p1 h1]|e] eqn:Hx;
        [simpl in H | discriminate].
      apply gpx_extension_spec in Hx.
      destruct Hx as [dp [dh [-> [-> [Ep Eh]]]]].
      apply IH in H. destruct H as [ps' [hs' [-> [-> [E1 E2]]]]].
      exists (dp ++ ps')%list, (dh ++ hs')%list.
      rewrite !app_assoc. repeat split.
      * apply map_Returned_app. now exists dp, ps'.
      * apply map_Returned_app. now exists dh, hs'.
    + intros [ps' [hs' [-> [-> [E1 E2]]]]].
      apply map_Returned_app in E1, E2.
      destruct E1 as [dp [ps'' [-> [Ep E1]]]].
      destruct E2 as [dh [hs'' [-> [Eh E2]]]].
      assert (Hx : gpx_extension (p, h) x
                   = Returned ((p ++ dp)%list, (h ++ dh)%list)).
      { apply gpx_extension_spec. now exists dp, dh. }
      rewrite Hx. simpl. apply IH. exists ps'', hs''.
      rewrite !app_assoc. auto.
Qed.

(** The loops of [check_gpx] on a "ride" file return the readings that
    the document contains, and return exactly when every reading element
    holds an integer. *)
Lemma gpx_readings_spec (file_name : string) (gpx : GPX) (ps hs : list Z) :
  PyStr.contains "ride" (PyStr.lower file_name) = true ->
  gpx_readings file_name gpx = Returned (ps, hs)
  <-> contains_readings gpx ps hs.
Proof.
  intros H. rewrite (gpx_readings_ride file_name gpx H), gpx_extensions_spec.
  unfold contains_readings. split.
  - intros [ps' [hs' [-> [-> [E1 E2]]]]]. now split.
  - intros [E1 E2]. now exists ps, hs.
Qed.

(** ** The effect monad *)

(** Opens a checker down to the outcome of its first call. *)
Ltac step_into checker := unfold checker, bind, try_except, lift.

Lemma bind_returned {A B} (c : py A) (k : A -> py B) (l l' : log) (a : A) :
  c l = (Returned a, l') -> bind c k l = k a l'.
Proof. unfold bind. now intros ->. Qed.

Lemma bind_raised {A B} (c : py A) (k : A -> py B) (l l' : log) (e : exn) :
  c l = (Raised e, l') -> bind c k l = (Raised e, l').
Proof. unfold bind. now intros ->. Qed.

Lemma for_each_app {A} (xs ys : list A) (body : A -> py unit) (l l' : log) :
  for_each xs body l = (Returned tt, l') ->
  for_each (xs ++ ys) body l = for_each ys body l'.
Proof.
  revert l; induction xs as [|x xs IH]; intros l; simpl.
  - unfold ret. now intros [= ->].
  - unfold bind. destruct (body x l) as [[[]|e] l1]; [apply IH | discriminate].
Qed.

Lemma for_each_raises {A} (x : A) (rest : list A) (body : A -> py unit)
    (l l' : log) (e : exn) :
  body x l = (Raised e, l') ->
  for_each (x :: rest) body l = (Raised e, l').
Proof. intros H. simpl. now apply bind_raised. Qed.

Lemma sum_values_ints (xs : list Z) :
  PyNum.sum_values (map Some xs) = Returned (PyNum.sum xs).
Proof.
  unfold PyNum.sum_values, PyNum.sum. generalize 0.
  induction xs as [|x xs IH]; intros acc; simpl; [reflexivity | apply IH].
Qed.

Lemma len_map {A B} (f : A -> B) (xs : list A) :
  PyNum.len (map f xs) = PyNum.len xs.
Proof. unfold PyNum.len. now rewrite length_map. Qed.

(** ** The integrity evaluator *)

Section Evaluator.

Variable FitFile : BytesIO -> outcome FitMessages.
Variable gpxpy_parse : list N -> outcome GPX.
Variable open_read : string -> outcome (list byte).
Variable cpu_count : Z.


(** The verdict and the log of [integritycheck], from what the checker
    it calls does. *)
Lemma integritycheck_eq (a : Activity) (l : log) :
  integritycheck FitFile gpxpy_parse a l
  = match dispatch FitFile gpxpy_parse a l with
    | (Returned _, l') =>
        (Returned true, logged l' INFO (name a ++ " Integrity OK"))
    | (Raised e, l') =>
        if is_ActivityDefective e
        then (Returned false, logged l' ERROR (name a ++ " " ++ exn_str e))
        else (Raised e, l')
    end.
Proof.
  unfold integritycheck, try_except_else.
  destruct (dispatch FitFile gpxpy_parse a l) as [[u|e] l']; [reflexivity|].
  destruct (is_ActivityDefective e); reflexivity.
Qed.

(** An exception that leaves [integritycheck] is not an
    [ActivityDefective]. *)
Lemma integritycheck_raises (a : Activity) (l l' : log) (e : exn) :
  integritycheck FitFile gpxpy_parse a l = (Raised e, l') ->
  is_ActivityDefective e = false.
Proof.
  rewrite integritycheck_eq.
  destruct (dispatch FitFile gpxpy_parse a l) as [[u|e0] l0]; [discriminate|].
  destruct (is_ActivityDefective e0) eqn:E; [discriminate|].
  now intros [= <- _].
Qed.

Lemma dispatch_fit (a : Activity) :
  extension a = "fit" -> dispatch FitFile gpxpy_parse a = check_fit FitFile a.
Proof. unfold dispatch. now intros ->. Qed.

Lemma dispatch_gpx (a : Activity) :
  extension a = "gpx" ->
  dispatch FitFile gpxpy_parse a = check_gpx gpxpy_parse a.
Proof. unfold dispatch. now intros ->. Qed.

Lemma dispatch_other (a : Activity) :
  extension a <> "fit" -> extension a <> "gpx" ->
  dispatch FitFile gpxpy_parse a = ret tt.
Proof.
  unfold dispatch. intros Hf Hg.
  apply String.eqb_neq in Hf, Hg. now rewrite Hf, Hg.
Qed.

(** C3: the evaluator calls the checker that matches the extension; when
    the checker raises a classified failure the evaluator logs an error
    line made of the file name and the detail and returns false; when the
    checker raises nothing it logs "<name> Integrity OK" and returns
    true. *)
Theorem integritycheck_verdict (a : Activity) (l : log) :
  let checker :=
    if String.eqb (extension a) "fit" then check_fit FitFile a
    else if String.eqb (extension a) "gpx" then check_gpx gpxpy_parse a
    else ret tt in
  match checker l with
  | (Returned _, l') =>
      integritycheck FitFile gpxpy_parse a l
      = (Returned true, logged l' INFO (name a ++ " Integrity OK"))
  | (Raised (ActivityDefective detail), l') =>
      integritycheck FitFile gpxpy_parse a l
      = (Returned false, logged l' ERROR (name a ++ " " ++ detail))
  | (Raised e, l') => integritycheck FitFile gpxpy_parse a l = (Raised e, l')
  end.
Proof.
  intros checker. rewrite integritycheck_eq.
  change (dispatch FitFile gpxpy_parse a l) with (checker l).
  destruct (checker l) as [[u|e] l']; [reflexivity|].
  destruct e; reflexivity.
Qed.

(** The run: [main] up to the activity that raises. *)
Lemma main_aborts (targets : list string) (before after : list Activity)
    (a : Activity) (l l1 l2 l3 : log) (e : exn) :
  read_targets open_read targets []
    (logged l DEBUG ("CPU count: " ++ PyStr.of_int cpu_count))
  = (Returned (before ++ a :: after)%list, l1) ->
  check_all FitFile gpxpy_parse before l1 = (Returned tt, l2) ->
  integritycheck FitFile gpxpy_parse a l2 = (Raised e, l3) ->
  main FitFile gpxpy_parse open_read cpu_count targets l = (Raised e, l3).
Proof.
  intros Hread Hbefore Ha. unfold main.
  unfold bind at 1. unfold LOG_debug, LOG_emit.
  rewrite (bind_returned _ _ _ _ _ Hread). unfold check_all in *.
  rewrite (for_each_app _ _ _ _ _ Hbefore).
  apply for_each_raises. now apply bind_raised.
Qed.

(** C4: a classified failure never leaves the evaluator: it becomes an
    error line and the verdict false; an exception of any other class
    that a checker raises leaves the evaluator as it is, and ends the
    run at that activity. *)
Theorem classified_failures_stop_at_evaluator :
  (forall a l l' e,
      integritycheck FitFile gpxpy_parse a l = (Raised e, l') ->
      is_ActivityDefective e = false)
  /\ (forall a l l' e,
         dispatch FitFile gpxpy_parse a l = (Raised e, l') ->
         is_ActivityDefective e = true ->
         integritycheck FitFile gpxpy_parse a l
         = (Returned false, logged l' ERROR (name a ++ " " ++ exn_str e)))
  /\ (forall a l l' e,
         dispatch FitFile gpxpy_parse a l = (Raised e, l') ->
         is_ActivityDefective e = false ->
         integritycheck FitFile gpxpy_parse a l = (Raised e, l'))
  /\ (forall targets before a after l l1 l2 l3 e,
         read_targets open_read targets []
           (logged l DEBUG ("CPU count: " ++ PyStr.of_int cpu_count))
         = (Returned (before ++ a :: after)%list, l1) ->
         check_all FitFile gpxpy_parse before l1 = (Returned tt, l2) ->
         dispatch FitFile gpxpy_parse a l2 = (Raised e, l3) ->
         is_ActivityDefective e = false ->
         main FitFile gpxpy_parse open_read cpu_count targets l
         = (Raised e, l3)).
Proof.
  split; [exact integritycheck_raises|].
  split; [|split].
  - intros a l l' e H D. rewrite integritycheck_eq, H, D. reflexivity.
  - intros a l l' e H D. rewrite integritycheck_eq, H, D. reflexivity.
  - intros targets before a after l l1 l2 l3 e Hread Hbefore H D.
    apply (main_aborts targets before after a l l1 l2 l3 e Hread Hbefore).
    rewrite integritycheck_eq, H, D. reflexivity.
Qed.

(** What [check_fit] does when the header cannot be read. *)
Lemma check_fit_header_error (a : Activity) (l : log) (m : string) :
  FitFile (fileobj a) = Raised (FitHeaderError m) ->
  check_fit FitFile a l
  = (Raised (ActivityDefective (name a ++ " truncated")), l).
Proof.
  intros H. step_into check_fit. now rewrite H.
Qed.

(** What the handler around [FitFile(...)] covers: when the call raises
    [FitHeaderError], the binary checker raises the classified failure
    "<name> truncated", and the evaluator returns false for an activity
    it sends to that checker. *)
Lemma header_error_is_defective (a : Activity) (l : log) (m : string) :
  FitFile (fileobj a) = Raised (FitHeaderError m) ->
  check_fit FitFile a l
  = (Raised (ActivityDefective (name a ++ " truncated")), l)
  /\ (extension a = "fit" ->
      integritycheck FitFile gpxpy_parse a l
      = (Returned false,
         logged l ERROR (name a ++ " " ++ name a ++ " truncated"))).
Proof.
  intros H. split; [now apply check_fit_header_error with m|].
  intros E. rewrite integritycheck_eq, (dispatch_fit a E),
    (check_fit_header_error a l m H). reflexivity.
Qed.

(** What [check_gpx] does when the parser finds the XML malformed. *)
Lemma check_gpx_syntax_error (a : Activity) (l : log) (cps : list N)
    (m : string) :
  PyBytes.decode_utf8 (buffer (fileobj a)) = Returned cps ->
  gpxpy_parse cps = Raised (GPXXMLSyntaxException m) ->
  check_gpx gpxpy_parse a l
  = (Raised (ActivityDefective (name a ++ " - " ++ m)), l).
Proof.
  intros Hd Hp. step_into check_gpx. simpl.
  rewrite Hd. simpl. now rewrite Hp.
Qed.

(** Decoding raises nothing but [UnicodeDecodeError]. *)
Lemma decode_utf8_raises (b : list byte) (e : exn) :
  PyBytes.decode_utf8 b = Raised e -> e = UnicodeDecodeError.
Proof.
  unfold PyBytes.decode_utf8.
  destruct (PyBytes.utf8_points (map Byte.to_N b)); [discriminate|].
  now intros [= <-].
Qed.

(** What [check_gpx] does when decoding or parsing raises anything but
    the parser's syntax error. *)
Lemma check_gpx_parse_raises (a : Activity) (l : log) (e : exn) :
  obind (PyBytes.decode_utf8 (buffer (fileobj a))) gpxpy_parse = Raised e ->
  is_GPXXMLSyntaxException e = false ->
  check_gpx gpxpy_parse a l = (Raised e, l).
Proof.
  intros H S. step_into check_gpx. cbn [getvalue fst].
  now rewrite H, S.
Qed.

(** C6, amended: of the files that fail to parse, [check_gpx] fails the
    ones whose bytes are UTF-8 and in whose text the parser finds a
    syntax error ([GPXXMLSyntaxException]): it raises the classified
    failure "<name> - <parser message>", and the evaluator returns false
    for an activity it sends to that checker.  The others get no
    verdict: when the bytes are not UTF-8, [UnicodeDecodeError], and when
    the parser raises an exception of another class, that exception,
    leaves [check_gpx] and the evaluator with nothing logged. *)
Theorem malformed_gpx_is_defective (a : Activity) (l : log) :
  (forall cps m,
      PyBytes.decode_utf8 (buffer (fileobj a)) = Returned cps ->
      gpxpy_parse cps = Raised (GPXXMLSyntaxException m) ->
      check_gpx gpxpy_parse a l
      = (Raised (ActivityDefective (name a ++ " - " ++ m)), l)
      /\ (extension a = "gpx" ->
          integritycheck FitFile gpxpy_parse a l
          = (Returned false,
             logged l ERROR (name a ++ " " ++ name a ++ " - " ++ m))))
  /\ (forall e,
         PyBytes.decode_utf8 (buffer (fileobj a)) = Raised e ->
         e = UnicodeDecodeError
         /\ check_gpx gpxpy_parse a l = (Raised e, l)
         /\ (extension a = "gpx" ->
             integritycheck FitFile gpxpy_parse a l = (Raised e, l)))
  /\ (forall cps e,
         PyBytes.decode_utf8 (buffer (fileobj a)) = Returned cps ->
         gpxpy_parse cps = Raised e ->
         is_GPXXMLSyntaxException e = false ->
         check_gpx gpxpy_parse a l = (Raised e, l)
         /\ (extension a = "gpx" ->
             is_ActivityDefective e = false ->
             integritycheck FitFile gpxpy_parse a l = (Raised e, l))).
Proof.
  split; [|split].
  - intros cps m Hd Hp.
    split; [now apply check_gpx_syntax_error with cps|].
    intros E. rewrite integritycheck_eq, (dispatch_gpx a E),
      (check_gpx_syntax_error a l cps m Hd Hp). reflexivity.
  - intros e Hd.
    pose proof (decode_utf8_raises _ _ Hd) as ->.
    assert (C : check_gpx gpxpy_parse a l = (Raised UnicodeDecodeError, l)).
    { apply check_gpx_parse_raises; [|reflexivity]. now rewrite Hd. }
    split; [reflexivity|]. split; [exact C|].
    intros E. rewrite integritycheck_eq, (dispatch_gpx a E), C. reflexivity.
  - intros cps e Hd Hp S.
    assert (C : check_gpx gpxpy_parse a l = (Raised e, l)).
    { apply check_gpx_parse_raises; [|exact S]. now rewrite Hd. }
    split; [exact C|].
    intros E D. rewrite integritycheck_eq, (dispatch_gpx a E), C, D.
    reflexivity.
Qed.

(** C9: an activity whose extension is neither "fit" nor "gpx" as
    written (letter case counts) is sent to no checker; the evaluator
    logs "<name> Integrity OK" and returns true. *)
Theorem other_extension_passes_unchecked (a : Activity) (l : log) :
  extension a <> "fit" -> extension a <> "gpx" ->
  dispatch FitFile gpxpy_parse a = ret tt
  /\ integritycheck FitFile gpxpy_parse a l
     = (Returned true, logged l INFO (name a ++ " Integrity OK")).
Proof.
  intros Hf Hg. split; [now apply dispatch_other|].
  rewrite integritycheck_eq, (dispatch_other a Hf Hg). reflexivity.
Qed.

(** A loop whose body changes nothing changes nothing. *)
Lemma ofold_unchanged {A B} (f : A -> B -> outcome A) (xs : list B)
    (acc : A) :
  (forall a x, f a x = Returned a) -> ofold f xs acc = Returned acc.
Proof.
  intros H. induction xs as [|x xs IH]; simpl; [reflexivity|].
  now rewrite H.
Qed.

(** Without "ride" in the name, the loops of [check_gpx] gather
    nothing, whatever the document holds. *)
Lemma gpx_readings_not_ride (file_name : string) (gpx : GPX) :
  PyStr.contains "ride" (PyStr.lower file_name) = false ->
  gpx_readings file_name gpx = Returned ([], []).
Proof.
  intros H. unfold gpx_readings. apply ofold_unchanged.
  intros acc track. unfold gpx_track. apply ofold_unchanged.
  intros acc' segment. unfold gpx_segment. apply ofold_unchanged.
  intros acc'' point. unfold gpx_point. now rewrite H.
Qed.

(** [check_gpx] once the document is parsed, from the readings that the
    loops gather. *)
Lemma check_gpx_parsed (a : Activity) (l : log) (cps : list N)
    (gpx : GPX) :
  PyBytes.decode_utf8 (buffer (fileobj a)) = Returned cps ->
  gpxpy_parse cps = Returned gpx ->
  check_gpx gpxpy_parse a l
  = match gpx_readings (name a) gpx with
    | Returned (power_readings, hr_readings) =>
        match PyNum.round_div (PyNum.sum power_readings)
                              (PyNum.len power_readings) with
        | Returned power =>
            match PyNum.round_div (PyNum.sum hr_readings)
                                  (PyNum.len hr_readings) with
            | Returned hr =>
                (Returned tt, logged l INFO (averages_line (name a) power hr))
            | Raised e =>
                if is_ZeroDivisionError e then (Returned tt, l)
                else (Raised e, l)
            end
        | Raised e =>
            if is_ZeroDivisionError e then (Returned tt, l)
            else (Raised e, l)
        end
    | Raised e =>
        if is_ZeroDivisionError e then (Returned tt, l) else (Raised e, l)
    end.
Proof.
  intros Hd Hp. step_into check_gpx. simpl.
  rewrite Hd. simpl. rewrite Hp. simpl.
  destruct (gpx_readings (name a) gpx) as [[ps hs]|e]; [|reflexivity].
  destruct (PyNum.round_div (PyNum.sum ps) (PyNum.len ps)) as [p|e];
    [|reflexivity].
  destruct (PyNum.round_div (PyNum.sum hs) (PyNum.len hs)) as [h|e];
    reflexivity.
Qed.

(** C7: when the file name does not hold "ride" (letter case apart), no
    reading is gathered from any document, and the XML checker succeeds
    exactly when decoding and parsing do: it returns with nothing logged
    on every parsed document, turns the parser's syntax error into the
    classified failure, and lets any other exception through. *)
Theorem gpx_without_ride_only_parses (a : Activity) (l : log) :
  PyStr.contains "ride" (PyStr.lower (name a)) = false ->
  (forall gpx, gpx_readings (name a) gpx = Returned ([], []))
  /\ check_gpx gpxpy_parse a l
     = match obind (PyBytes.decode_utf8 (buffer (fileobj a)))
                   gpxpy_parse with
       | Returned _ => (Returned tt, l)
       | Raised e =>
           if is_GPXXMLSyntaxException e
           then (Raised (ActivityDefective
                           (name a ++ " - " ++ exn_str e)), l)
           else (Raised e, l)
       end.
Proof.
  intros H. split; [intros gpx; now apply gpx_readings_not_ride|].
  destruct (PyBytes.decode_utf8 (buffer (fileobj a))) as [cps|e] eqn:Hd.
  - simpl. destruct (gpxpy_parse cps) as [gpx|e] eqn:Hp.
    + rewrite (check_gpx_parsed a l cps gpx Hd Hp),
        (gpx_readings_not_ride (name a) gpx H). reflexivity.
    + step_into check_gpx. simpl.
      rewrite Hd. simpl. rewrite Hp.
      destruct (is_GPXXMLSyntaxException e); reflexivity.
  - simpl. step_into check_gpx. simpl.
    rewrite Hd. simpl.
    destruct (is_GPXXMLSyntaxException e); reflexivity.
Qed.

(** [check_fit] once the header is read, from the messages that the
    generator yields. *)
Lemma check_fit_opened (a : Activity) (l : log) (msgs : FitMessages) :
  FitFile (fileobj a) = Returned msgs ->
  failure msgs = None ->
  check_fit FitFile a l
  = let '(power_readings, hr_readings) := fit_readings (yielded msgs) in
    match obind (PyNum.sum_values power_readings)
                (fun total =>
                   PyNum.round_div total (PyNum.len power_readings)) with
    | Returned power =>
        match obind (PyNum.sum_values hr_readings)
                    (fun total =>
                       PyNum.round_div total (PyNum.len hr_readings)) with
        | Returned hr =>
            (Returned tt, logged l INFO (averages_line (name a) power hr))
        | Raised e =>
            if is_fit_error e
            then (Raised (ActivityDefective (exn_str e)), l)
            else (Raised e, l)
        end
    | Raised e =>
        if is_fit_error e
        then (Raised (ActivityDefective (exn_str e)), l)
        else (Raised e, l)
    end.
Proof.
  intros Ho Hf. step_into check_fit.
  rewrite Ho. simpl. rewrite Hf.
  destruct (fit_readings (yielded msgs)) as [ps hs]. simpl.
  destruct (PyNum.sum_values ps) as [tp|e]; [simpl|reflexivity].
  destruct (PyNum.round_div tp (PyNum.len ps)) as [p|e]; [|reflexivity].
  destruct (PyNum.sum_values hs) as [th|e]; [simpl|reflexivity].
  destruct (PyNum.round_div th (PyNum.len hs)) as [h|e]; reflexivity.
Qed.

(** A .fit file that parses and has no power field, or power fields and
    no heart-rate field: the division by zero leaves [check_fit] and the
    evaluator. *)
Lemma check_fit_empty_readings (a : Activity) (l : log)
    (msgs : FitMessages) (power_readings hr_readings : list Z) :
  FitFile (fileobj a) = Returned msgs ->
  failure msgs = None ->
  fit_readings (yielded msgs)
  = (map Some power_readings, map Some hr_readings) ->
  power_readings = []
  \/ (hr_readings = []
      /\ exists p, PyNum.round_div (PyNum.sum power_readings)
                                   (PyNum.len power_readings)
                   = Returned p) ->
  check_fit FitFile a l = (Raised ZeroDivisionError, l)
  /\ (extension a = "fit" ->
      integritycheck FitFile gpxpy_parse a l = (Raised ZeroDivisionError, l)).
Proof.
  intros Ho Hf Hr Hempty.
  assert (Hc : check_fit FitFile a l = (Raised ZeroDivisionError, l)).
  { rewrite (check_fit_opened a l msgs Ho Hf), Hr.
    rewrite !sum_values_ints, !len_map. simpl obind.
    destruct Hempty as [-> | [-> [p Hp]]]; [reflexivity|].
    rewrite Hp. reflexivity. }
  split; [exact Hc|].
  intros E. rewrite integritycheck_eq, (dispatch_fit a E), Hc. reflexivity.
Qed.

(** C2, amended: for a "ride" file whose document contains the power
    readings [ps] and the heart-rate readings [hs]: when
    [round(sum(ps) / len(ps))] and [round(sum(hs) / len(hs))] both have a
    value, which needs both lists non-empty, [check_gpx] logs one line
    that reports the first as the average power, and returns; with both
    lists non-empty and sums below 2^52 in absolute value they do have a
    value, the integer nearest to the mean (ties to even); when the
    power list is empty, or the heart-rate list is empty and the power
    average has a value, nothing is logged, [check_gpx] returns and the
    evaluator passes the file. *)
Theorem ride_gpx_average_power (a : Activity) (l : log) (cps : list N)
    (gpx : GPX) (ps hs : list Z) :
  PyStr.contains "ride" (PyStr.lower (name a)) = true ->
  PyBytes.decode_utf8 (buffer (fileobj a)) = Returned cps ->
  gpxpy_parse cps = Returned gpx ->
  contains_readings gpx ps hs ->
  (forall power hr,
      PyNum.round_div (PyNum.sum ps) (PyNum.len ps) = Returned power ->
      PyNum.round_div (PyNum.sum hs) (PyNum.len hs) = Returned hr ->
      ps <> [] /\ hs <> []
      /\ check_gpx gpxpy_parse a l
         = (Returned tt, logged l INFO (averages_line (name a) power hr)))
  /\ (ps <> [] -> hs <> [] ->
      Z.abs (PyNum.sum ps) < 2 ^ 52 -> Z.abs (PyNum.sum hs) < 2 ^ 52 ->
      PyNum.round_div (PyNum.sum ps) (PyNum.len ps)
      = Returned (PyNum.nearest_even (PyNum.sum ps) (PyNum.len ps))
      /\ PyNum.round_div (PyNum.sum hs) (PyNum.len hs)
         = Returned (PyNum.nearest_even (PyNum.sum hs) (PyNum.len hs)))
  /\ (ps = []
      \/ (hs = []
          /\ exists power,
             PyNum.round_div (PyNum.sum ps) (PyNum.len ps)
             = Returned power) ->
      check_gpx gpxpy_parse a l = (Returned tt, l)
      /\ (extension a = "gpx" ->
          integritycheck FitFile gpxpy_parse a l
          = (Returned true, logged l INFO (name a ++ " Integrity OK")))).
Proof.
  intros Hride Hd Hp Hc.
  apply (gpx_readings_spec (name a) gpx ps hs Hride) in Hc.
  pose proof (check_gpx_parsed a l cps gpx Hd Hp) as E. rewrite Hc in E.
  split; [|split].
  - intros power hr Rp Rh. rewrite Rp, Rh in E.
    repeat split; [| |exact E].
    + intros ->. discriminate Rp.
    + intros ->. discriminate Rh.
  - intros Np Nh Bp Bh. split.
    + exact (round_div_exact _ _ (len_positive ps Np) Bp).
    + exact (round_div_exact _ _ (len_positive hs Nh) Bh).
  - intros Empty.
    assert (C : check_gpx gpxpy_parse a l = (Returned tt, l)).
    { destruct Empty as [-> | [-> [power Rp]]].
      - exact E.
      - rewrite Rp in E. exact E. }
    split; [exact C|].
    intros X. rewrite integritycheck_eq, (dispatch_gpx a X), C.
    reflexivity.
Qed.

(** The first loop of [main] when every file it opens can be read. *)
Lemma read_targets_readable (targets : list string)
    (streams : list Activity) (l : log) :
  Forall (readable open_read) (filter eligible targets) ->
  read_targets open_read targets streams l
  = (Returned (streams ++ activities_of (content_of open_read) targets)%list,
     (l ++ skip_notes targets)%list).
Proof.
  revert streams l. induction targets as [|file targets IH];
    intros streams l H.
  - simpl. unfold ret, activities_of, skip_notes. simpl.
    now rewrite !app_nil_r.
  - cbn [read_targets]. rewrite skipped_eligible.
    unfold activities_of, skip_notes in *. cbn [filter] in *.
    destruct (eligible file) eqn:E; cbn [negb].
    + inversion H as [|? ? [content Hc] H']; subst.
      unfold bind at 1, lift. rewrite Hc.
      rewrite (IH _ _ H'). cbn [map]. unfold content_of at 2.
      rewrite Hc, <- app_assoc. reflexivity.
    + unfold bind at 1, LOG_debug, LOG_emit, logged.
      rewrite (IH _ _ H). cbn [map]. rewrite <- app_assoc. reflexivity.
Qed.

(** The first loop of [main] stops at the first file that cannot be
    read. *)
Lemma read_targets_raises (targets : list string)
    (streams : list Activity) (l l' : log) (e : exn) :
  read_targets open_read targets streams l = (Raised e, l') ->
  exists file, In file targets /\ eligible file = true
               /\ open_read file = Raised e.
Proof.
  revert streams l. induction targets as [|file targets IH];
    intros streams l; cbn [read_targets].
  - discriminate.
  - rewrite skipped_eligible. destruct (eligible file) eqn:E; cbn [negb].
    + unfold bind at 1, lift. destruct (open_read file) as [c|e0] eqn:Hc.
      * intros H. destruct (IH _ _ H) as [f [Hin [He Ho]]].
        exists f. repeat split; auto. now right.
      * intros [= <- _]. exists file. repeat split; auto. now left.
    + unfold bind at 1, LOG_debug, LOG_emit.
      intros H. destruct (IH _ _ H) as [f [Hin [He Ho]]].
      exists f. repeat split; auto. now right.
Qed.

Lemma not_eligible (file : string) :
  ~ ends_in_fit_or_gpx file -> eligible file = false.
Proof.
  intros H. destruct (eligible file) eqn:E; [|reflexivity].
  exfalso. apply H. now apply eligible_spec.
Qed.

(** C8: with every matching file readable, the first loop of [main]
    returns one Activity per target whose name ends in ".fit" or ".gpx"
    (letter case apart), in order, holding the bytes read, and no other;
    each other target gets the debug note "File skipped: <path>" and is
    the name of no Activity; and the run evaluates the Activities built
    and nothing else. *)
Theorem activities_are_the_fit_and_gpx_targets (targets : list string)
    (l : log) :
  Forall (readable open_read) (filter eligible targets) ->
  let built := activities_of (content_of open_read) targets in
  read_targets open_read targets [] l
  = (Returned built, (l ++ skip_notes targets)%list)
  /\ (forall a,
         In a built
         <-> exists file,
             In file targets /\ ends_in_fit_or_gpx file
             /\ a = {| name := file;
                       fileobj := BytesIO_of (content_of open_read file) |})
  /\ (forall file,
         In file targets -> ~ ends_in_fit_or_gpx file ->
         In (DEBUG, "File skipped: " ++ file) (l ++ skip_notes targets)%list
         /\ ~ In file (map name built))
  /\ main FitFile gpxpy_parse open_read cpu_count targets l
     = check_all FitFile gpxpy_parse built
         (logged l DEBUG ("CPU count: " ++ PyStr.of_int cpu_count)
            ++ skip_notes targets)%list.
Proof.
  intros H built. split; [|split; [|split]].
  - now rewrite (read_targets_readable targets [] l H).
  - intros a. unfold built, activities_of. rewrite in_map_iff. split.
    + intros [file [<- Hin]]. apply filter_In in Hin. destruct Hin as [Hin E].
      exists file. repeat split; auto. now apply eligible_spec.
    + intros [file [Hin [E ->]]]. exists file. split; [reflexivity|].
      apply filter_In. split; [assumption | now apply eligible_spec].
  - intros file Hin Hn. apply not_eligible in Hn. split.
    + apply in_or_app. right. unfold skip_notes.
      apply in_map_iff. exists file. split; [reflexivity|].
      apply filter_In. split; [assumption | now rewrite Hn].
    + unfold built, activities_of. rewrite map_map. cbn [name].
      rewrite map_id. intros Hf. apply filter_In in Hf.
      destruct Hf as [_ Hf]. congruence.
  - unfold main. unfold bind at 1, LOG_debug, LOG_emit.
    rewrite (bind_returned _ _ _ _ _
               (read_targets_readable targets [] _ H)).
    reflexivity.
Qed.

End Evaluator.

(** ** The content hash *)

(** The digest is the MD5 of the buffer, whatever the name and the read
    position. *)
Lemma md5sum_digest (a : Activity) :
  fst (md5sum a) = PyBytes.md5_hexdigest (buffer (fileobj a)).
Proof. reflexivity. Qed.

(** The call leaves the activity as it was. *)
Lemma md5sum_leaves (a : Activity) : snd (md5sum a) = a.
Proof. destruct a as [n f]. reflexivity. Qed.

(** C10: two activities that hold the same bytes have the same digest,
    whatever their names and read positions; computing the digest changes
    neither activity, so every later call gives the same digest again. *)
Theorem md5sum_deterministic (a b : Activity) :
  buffer (fileobj a) = buffer (fileobj b) ->
  fst (md5sum a) = fst (md5sum b)
  /\ snd (md5sum a) = a /\ snd (md5sum b) = b
  /\ fst (md5sum (snd (md5sum a))) = fst (md5sum b).
Proof.
  intros H. rewrite !md5sum_leaves, !md5sum_digest, H. auto.
Qed.

(** ** The theorems at concrete inputs *)

(** The scenario of the specification: three records with powers 100,
    150 and 200 give the average power 150 and the file passes. *)
Example ride1_fit_scenario :
  integritycheck (Samples.FitFile_reads Samples.three_records)
                 (Samples.gpxpy_rejects "mismatched tag")
                 (Samples.activity "ride1.fit" Samples.some_bytes) []
  = (Returned true,
     [(INFO, "ride1.fit Average Power: 150, Average HR: 125");
      (INFO, "ride1.fit Integrity OK")]).
Proof. vm_compute. reflexivity. Qed.

Example md5sum_of_empty_file :
  fst (md5sum (Samples.activity "empty.fit" []))
  = "d41d8cd98f00b204e9800998ecf8427e".
Proof. vm_compute. reflexivity. Qed.

Example extension_examples :
  extension (Samples.activity "a.b.gpx" []) = "gpx"
  /\ extension (Samples.activity "RIDE.FIT" []) = "FIT"
  /\ extension (Samples.activity "README" []) = "README"
  /\ extension (Samples.activity "odd." []) = "".
Proof. repeat split. Qed.

(** C1: a .fit file that parses, with a heart rate in its one record and
    no power: [check_fit] ends in [ZeroDivisionError], which the evaluator
    does not catch and which ends the run before the next file is
    evaluated. *)
Theorem fit_without_power_escapes :
  let a := Samples.activity "walk.fit" Samples.some_bytes in
  let FitFile := Samples.FitFile_reads Samples.hr_only in
  let gpxpy_parse := Samples.gpxpy_rejects "mismatched tag" in
  check_fit FitFile a [] = (Raised ZeroDivisionError, [])
  /\ integritycheck FitFile gpxpy_parse a [] = (Raised ZeroDivisionError, [])
  /\ main FitFile gpxpy_parse Samples.open_read 4
          ["ride1.fit"; "lap2.txt"; "course.GPX"] []
     = (Raised ZeroDivisionError,
        [(DEBUG, "CPU count: 4"); (DEBUG, "File skipped: lap2.txt")]).
Proof. vm_compute. repeat split. Qed.

(** C5 fails at a zero-length .fit file: [fitparse] asks for the 12
    bytes of the header, gets none and raises [FitEOFError], which is
    not a [FitHeaderError]; the handler around [FitFile(...)] names
    [FitHeaderError] only, so [check_fit] raises no classified failure:
    the [FitEOFError] leaves [check_fit] and the evaluator, which returns
    no verdict and logs nothing, and it ends the run before the next
    file is evaluated. *)
Theorem empty_fit_escapes :
  let a := Samples.activity "empty.fit" [] in
  let FitFile := Samples.FitFile_reads Samples.three_records in
  let gpxpy_parse := Samples.gpxpy_reads Samples.power_only in
  let e := FitEOFError "Tried to read 12 bytes from .FIT file but got 0" in
  FitFile (fileobj a) = Raised e
  /\ is_FitHeaderError e = false
  /\ check_fit FitFile a [] = (Raised e, [])
  /\ integritycheck FitFile gpxpy_parse a [] = (Raised e, [])
  /\ main FitFile gpxpy_parse Cases.open_read 4 ["empty.fit"; "ride1.fit"] []
     = (Raised e, [(DEBUG, "CPU count: 4")]).
Proof. vm_compute. repeat split. Qed.

(** A literal of 4300 digits is read; one digit more and [int()] raises
    [ValueError], with or without a sign. *)
Example int_digit_limit :
  PyNum.int (Some (Cases.ones 4300)) = Returned ((10 ^ 4300 - 1) / 9)
  /\ PyNum.int (Some (Cases.ones 4301)) = Raised ValueError
  /\ PyNum.int (Some (String "-" (Cases.ones 4301))) = Raised ValueError.
Proof. vm_compute. repeat split. Qed.

(** A "ride" file with a power of 4301 digits: [ValueError] leaves
    [check_gpx], and nothing is logged. *)
Example ride_gpx_long_literal :
  check_gpx (Samples.gpxpy_reads Cases.long_power)
            (Samples.activity "ride1.gpx" Samples.some_bytes) []
  = (Raised ValueError, []).
Proof. vm_compute. reflexivity. Qed.

(** C2, as stated, fails: a "ride" file with two power readings and no
    heart rate reports no average. *)
Lemma ride_gpx_without_hr_reports_nothing :
  ~ reports_mean_of_any_power
      (Samples.gpxpy_reads Samples.power_only)
      (Samples.activity "ride1.gpx" Samples.some_bytes).
Proof.
  intros H.
  destruct (H (map Byte.to_N Samples.some_bytes) Samples.power_only
              [100; 201] [] 150) as [hr Hin];
    try reflexivity; try discriminate.
  - split; reflexivity.
  - vm_compute in Hin. exact Hin.
Qed.

Lemma ride_gpx_average_power_witness :
  let a := Samples.activity "ride1.gpx" Samples.some_bytes in
  let gpxpy_parse := Samples.gpxpy_reads Samples.power_and_hr in
  contains_readings Samples.power_and_hr [100; 201] [120; 131]
  /\ PyNum.round_div (PyNum.sum [100; 201]) (PyNum.len [100; 201])
     = Returned 150
  /\ check_gpx gpxpy_parse a []
     = (Returned tt,
        [(INFO, "ride1.gpx Average Power: 150, Average HR: 126")]).
Proof.
  intros a gpxpy_parse.
  assert (C : contains_readings Samples.power_and_hr [100; 201] [120; 131])
    by (split; reflexivity).
  assert (Rp : PyNum.round_div (PyNum.sum [100; 201]) (PyNum.len [100; 201])
               = Returned 150) by (vm_compute; reflexivity).
  assert (Rh : PyNum.round_div (PyNum.sum [120; 131]) (PyNum.len [120; 131])
               = Returned 126) by (vm_compute; reflexivity).
  split; [exact C|]. split; [exact Rp|].
  destruct (ride_gpx_average_power
              (Samples.FitFile_reads Samples.no_messages) gpxpy_parse
              a [] (map Byte.to_N Samples.some_bytes) Samples.power_and_hr
              [100; 201] [120; 131]
              eq_refl eq_refl eq_refl C) as [Reported _].
  exact (proj2 (proj2 (Reported 150 126 Rp Rh))).
Defined.

Lemma classified_failures_witness :
  let a := Samples.activity "bad.gpx" [xff] in
  let FitFile := Samples.FitFile_reads Samples.no_messages in
  let gpxpy_parse := Samples.gpxpy_reads Samples.power_only in
  dispatch FitFile gpxpy_parse a [] = (Raised UnicodeDecodeError, [])
  /\ integritycheck FitFile gpxpy_parse a [] = (Raised UnicodeDecodeError, []).
Proof.
  intros a FitFile gpxpy_parse.
  assert (D : dispatch FitFile gpxpy_parse a []
              = (Raised UnicodeDecodeError, [])) by reflexivity.
  split; [exact D|].
  destruct (classified_failures_stop_at_evaluator
              FitFile gpxpy_parse Samples.open_read 4) as [_ [_ [Other _]]].
  exact (Other a [] [] UnicodeDecodeError D eq_refl).
Defined.

(** C6, as stated, fails: a ".gpx" file saved in Latin-1, with one
    accented letter, fails to parse whatever the libraries do, and the
    evaluator gives no verdict: [UnicodeDecodeError] leaves it. *)
Lemma latin1_gpx_gets_no_verdict :
  ~ exists FitFile gpxpy_parse,
      refuses_what_fails_to_parse FitFile gpxpy_parse
        (Samples.activity "course.gpx" Cases.latin1_bytes).
Proof.
  intros [FitFile [gpxpy_parse H]].
  destruct H as [_ V]; [reflexivity | |].
  - exists UnicodeDecodeError. reflexivity.
  - vm_compute in V. discriminate V.
Qed.

Lemma malformed_gpx_witness :
  let a := Samples.activity "course.gpx" Cases.mismatched_bytes in
  let b := Samples.activity "course.gpx" Cases.latin1_bytes in
  let m := "Error parsing XML: mismatched tag: line 1, column 12" in
  let FitFile := Samples.FitFile_reads Samples.no_messages in
  PyBytes.decode_utf8 (buffer (fileobj a))
  = Returned (map Byte.to_N Cases.mismatched_bytes)
  /\ Cases.gpxpy_strict (map Byte.to_N Cases.mismatched_bytes)
     = Raised (GPXXMLSyntaxException m)
  /\ check_gpx Cases.gpxpy_strict a []
     = (Raised (ActivityDefective ("course.gpx - " ++ m)), [])
  /\ integritycheck FitFile Cases.gpxpy_strict a []
     = (Returned false, [(ERROR, "course.gpx course.gpx - " ++ m)])
  /\ PyBytes.decode_utf8 (buffer (fileobj b)) = Raised UnicodeDecodeError
  /\ integritycheck FitFile Cases.gpxpy_strict b []
     = (Raised UnicodeDecodeError, []).
Proof.
  intros a b m FitFile.
  destruct (malformed_gpx_is_defective FitFile Cases.gpxpy_strict a [])
    as [Syntax _].
  destruct (Syntax (map Byte.to_N Cases.mismatched_bytes) m
                   eq_refl eq_refl) as [C E].
  destruct (malformed_gpx_is_defective FitFile Cases.gpxpy_strict b [])
    as [_ [Decode _]].
  destruct (Decode UnicodeDecodeError eq_refl) as [_ [_ V]].
  split; [reflexivity|]. split; [reflexivity|].
  split; [exact C|]. split; [exact (E eq_refl)|].
  split; [reflexivity | exact (V eq_refl)].
Defined.

Lemma gpx_without_ride_witness :
  let a := Samples.activity "course.gpx" Samples.some_bytes in
  let gpxpy_parse := Samples.gpxpy_reads Samples.power_and_hr in
  PyStr.contains "ride" (PyStr.lower (name a)) = false
  /\ gpx_readings (name a) Samples.power_and_hr = Returned ([], [])
  /\ check_gpx gpxpy_parse a [] = (Returned tt, []).
Proof.
  intros a gpxpy_parse.
  destruct (gpx_without_ride_only_parses gpxpy_parse a [] eq_refl) as [R C].
  split; [reflexivity|]. split; [exact (R Samples.power_and_hr) | exact C].
Defined.

Lemma activities_witness :
  let targets := ["ride1.fit"; "lap2.txt"; "course.GPX"] in
  Forall (readable Samples.open_read) (filter eligible targets)
  /\ read_targets Samples.open_read targets [] []
     = (Returned [Samples.activity "ride1.fit" Samples.some_bytes;
                  Samples.activity "course.GPX" Samples.some_bytes],
        [(DEBUG, "File skipped: lap2.txt")]).
Proof.
  intros targets.
  assert (R : Forall (readable Samples.open_read) (filter eligible targets)).
  { repeat constructor; exists Samples.some_bytes; reflexivity. }
  split; [exact R|].
  exact (proj1 (activities_are_the_fit_and_gpx_targets
                  (Samples.FitFile_reads Samples.no_messages)
                  (Samples.gpxpy_reads Samples.power_only)
                  Samples.open_read 4 targets [] R)).
Defined.

Lemma other_extension_witness :
  let a := Samples.activity "RIDE.FIT" [] in
  let FitFile := Samples.FitFile_reads Samples.no_messages in
  let gpxpy_parse := Samples.gpxpy_reads Samples.power_only in
  extension a <> "fit" /\ extension a <> "gpx"
  /\ integritycheck FitFile gpxpy_parse a []
     = (Returned true, [(INFO, "RIDE.FIT Integrity OK")]).
Proof.
  intros a FitFile gpxpy_parse.
  assert (Nf : extension a <> "fit") by discriminate.
  assert (Ng : extension a <> "gpx") by discriminate.
  split; [exact Nf|]. split; [exact Ng|].
  exact (proj2 (other_extension_passes_unchecked FitFile gpxpy_parse
                  a [] Nf Ng)).
Defined.

Lemma md5sum_witness :
  let a := {| name := "one.fit";
              fileobj := {| buffer := Samples.some_bytes; position := 0 |} |} in
  let b := {| name := "two.gpx";
              fileobj := {| buffer := Samples.some_bytes; position := 5 |} |} in
  buffer (fileobj a) = buffer (fileobj b)
  /\ fst (md5sum a) = fst (md5sum b).
Proof.
  intros a b. split; [reflexivity|].
  exact (proj1 (md5sum_deterministic a b eq_refl)).
Defined.

(** ** The extension of a name *)

Lemma contains_dot_cons (c : ascii) (s : string) :
  PyStr.contains "." (String c s) = Ascii.eqb "." c || PyStr.contains "." s.
Proof. simpl. now rewrite andb_true_r. Qed.

Lemma contains_dot_app (s t : string) :
  PyStr.contains "." (s ++ "." ++ t) = true.
Proof.
  induction s as [|c s IH].
  - reflexivity.
  - change (String c s ++ "." ++ t) with (String c (s ++ "." ++ t)).
    rewrite contains_dot_cons, IH. apply orb_true_r.
Qed.

Lemma split_cons_dot (s : string) :
  PyStr.split "." (String "." s) = "" :: PyStr.split "." s.
Proof. reflexivity. Qed.

Lemma split_cons_other (c : ascii) (s : string) :
  Ascii.eqb c "." = false ->
  PyStr.split "." (String c s)
  = match PyStr.split "." s with
    | [] => [String c ""]
    | w :: ws => String c w :: ws
    end.
Proof. intros H. simpl. now rewrite H. Qed.

(** A name without a period is not split. *)
Lemma split_no_dot (s : string) :
  PyStr.contains "." s = false -> PyStr.split "." s = [s].
Proof.
  induction s as [|c s IH]; [reflexivity|].
  rewrite contains_dot_cons. intros H. apply orb_false_elim in H.
  destruct H as [Hc Hs]. rewrite Ascii.eqb_sym in Hc.
  rewrite (split_cons_other c s Hc), (IH Hs). reflexivity.
Qed.

(** A name with a period is split in two parts at least. *)
Lemma split_with_dot (s : string) :
  PyStr.contains "." s = true ->
  exists w x ws, PyStr.split "." s = w :: x :: ws.
Proof.
  induction s as [|c s IH]; [discriminate|].
  rewrite contains_dot_cons. destruct (Ascii.eqb "." c) eqn:Hc.
  - intros _. apply Ascii.eqb_eq in Hc. subst c. rewrite split_cons_dot.
    destruct (PyStr.split "." s) as [|x ws] eqn:E.
    + destruct s as [|c s]; [discriminate|]. simpl in E.
      destruct (Ascii.eqb c "."); [discriminate|].
      destruct (PyStr.split "." s); discriminate.
    + now exists "", x, ws.
  - cbn [orb]. intros H. destruct (IH H) as [w [x [ws E]]].
    rewrite Ascii.eqb_sym in Hc. rewrite (split_cons_other c s Hc), E.
    now exists (String c w), x, ws.
Qed.

Lemma last_item_cons2 (w x : string) (ws : list string) :
  PyStr.last_item (w :: x :: ws) = PyStr.last_item (x :: ws).
Proof. reflexivity. Qed.

(** The part after the last period. *)
Lemma last_of_split_app (stem e : string) :
  PyStr.contains "." e = false ->
  PyStr.last_item (PyStr.split "." (stem ++ "." ++ e)) = e.
Proof.
  intros He. induction stem as [|c stem IH].
  - change ("" ++ "." ++ e) with (String "." e).
    rewrite split_cons_dot, (split_no_dot e He). reflexivity.
  - change (String c stem ++ "." ++ e) with (String c (stem ++ "." ++ e)).
    destruct (split_with_dot _ (contains_dot_app stem e)) as [w [x [ws E]]].
    rewrite E in IH. rewrite last_item_cons2 in IH.
    destruct (Ascii.eqb c ".") eqn:Hc.
    + apply Ascii.eqb_eq in Hc. subst c. rewrite split_cons_dot, E.
      rewrite last_item_cons2. rewrite last_item_cons2. exact IH.
    + rewrite (split_cons_other c _ Hc), E, last_item_cons2. exact IH.
Qed.

(** The extension holds no period, and the name is the extension alone or
    ends in a period and the extension. *)
Lemma extension_decomposition (s : string) :
  let e := PyStr.last_item (PyStr.split "." s) in
  PyStr.contains "." e = false
  /\ (s = e \/ exists stem, s = stem ++ "." ++ e).
Proof.
  induction s as [|c s IH]; [split; [reflexivity | now left]|].
  cbv zeta in *. destruct IH as [Hn Hd].
  destruct (Ascii.eqb c ".") eqn:Hc.
  - apply Ascii.eqb_eq in Hc. subst c. rewrite split_cons_dot.
    destruct (PyStr.split "." s) as [|x ws] eqn:E.
    + exfalso. destruct s as [|c s]; [discriminate|]. simpl in E.
      destruct (Ascii.eqb c "."); [discriminate|].
      destruct (PyStr.split "." s); discriminate.
    + rewrite last_item_cons2. split; [exact Hn|]. right.
      destruct Hd as [Hd | [stem Hd]].
      * exists "". now rewrite Hd at 1.
      * exists (String "." stem). now rewrite Hd at 1.
  - destruct (PyStr.contains "." s) eqn:Hs.
    + destruct (split_with_dot s Hs) as [w [x [ws E]]].
      rewrite (split_cons_other c s Hc). rewrite E in *.
      rewrite last_item_cons2 in *. split; [exact Hn|]. right.
      destruct Hd as [Hd | [stem Hd]].
      * rewrite Hd in Hs. congruence.
      * exists (String c stem). now rewrite Hd at 1.
    + rewrite (split_cons_other c s Hc), (split_no_dot s Hs).
      change (PyStr.last_item [String c s]) with (String c s).
      split; [|now left].
      rewrite contains_dot_cons, Hs, Ascii.eqb_sym, Hc. reflexivity.
Qed.

(** ** Computations that only add to the log *)

Lemma appends_ret {A} (a : A) : appends (ret a).
Proof. intros l. unfold ret. simpl. now rewrite app_nil_r. Qed.

Lemma appends_raise {A} (e : exn) : appends (@raise A e).
Proof. intros l. unfold raise. simpl. now rewrite app_nil_r. Qed.

Lemma appends_lift {A} (o : outcome A) : appends (lift o).
Proof. intros l. unfold lift. simpl. now rewrite app_nil_r. Qed.

Lemma appends_LOG (lv : level) (msg : string) : appends (LOG_emit lv msg).
Proof. intros l. reflexivity. Qed.

Lemma appends_bind {A B} (c : py A) (k : A -> py B) :
  appends c -> (forall a, appends (k a)) -> appends (bind c k).
Proof.
  intros Hc Hk l. unfold bind. rewrite (Hc l).
  destruct (c []) as [[a|e] d]; simpl.
  - rewrite (Hk a (l ++ d)%list), (Hk a d). simpl. now rewrite app_assoc.
  - reflexivity.
Qed.

Lemma appends_try_except {A} (body : py A) (catches : exn -> bool)
    (handler : exn -> py A) :
  appends body -> (forall e, appends (handler e)) ->
  appends (try_except body catches handler).
Proof.
  intros Hb Hh l. unfold try_except. rewrite (Hb l).
  destruct (body []) as [[a|e] d]; simpl; [reflexivity|].
  destruct (catches e); [|reflexivity].
  rewrite (Hh e (l ++ d)%list), (Hh e d). simpl. now rewrite app_assoc.
Qed.

Lemma appends_try_except_else {A B} (body : py A) (catches : exn -> bool)
    (handler : exn -> py B) (orelse : py B) :
  appends body -> (forall e, appends (handler e)) -> appends orelse ->
  appends (try_except_else body catches handler orelse).
Proof.
  intros Hb Hh Ho l. unfold try_except_else. rewrite (Hb l).
  destruct (body []) as [[a|e] d]; simpl.
  - rewrite (Ho (l ++ d)%list), (Ho d). simpl. now rewrite app_assoc.
  - destruct (catches e); [|reflexivity].
    rewrite (Hh e (l ++ d)%list), (Hh e d). simpl. now rewrite app_assoc.
Qed.

Lemma appends_for_each {A} (xs : list A) (body : A -> py unit) :
  (forall x, appends (body x)) -> appends (for_each xs body).
Proof.
  intros H. induction xs as [|x xs IH]; simpl.
  - apply appends_ret.
  - apply appends_bind; [apply H | intros _; exact IH].
Qed.

(** Closes a goal [appends c] for a computation built from the
    combinators. *)
Ltac appends_tac :=
  repeat first
    [ apply appends_bind | apply appends_try_except
    | apply appends_try_except_else | apply appends_for_each
    | apply appends_ret | apply appends_raise | apply appends_lift
    | apply appends_LOG
    | match goal with
      | |- forall _, _ => intro
      | |- appends (match ?o with Some _ => _ | None => _ end) => destruct o
      | |- appends (if ?b then _ else _) => destruct b
      end ].

Section Frame.

Variable FitFile : BytesIO -> outcome FitMessages.
Variable gpxpy_parse : list N -> outcome GPX.
Variable open_read : string -> outcome (list byte).
Variable cpu_count : Z.
Variable scandir : string -> Scan.

Lemma appends_check_gpx (a : Activity) : appends (check_gpx gpxpy_parse a).
Proof.
  unfold check_gpx. apply appends_bind; [appends_tac|]. intros gpx.
  apply appends_try_except; [|appends_tac].
  apply appends_bind; [appends_tac|]. intros [ps hs]. appends_tac.
Qed.

Lemma appends_check_fit (a : Activity) : appends (check_fit FitFile a).
Proof.
  unfold check_fit. apply appends_bind; [appends_tac|]. intros fitfile.
  apply appends_try_except; [|appends_tac].
  destruct (fit_readings (yielded fitfile)). appends_tac.
Qed.

Lemma appends_integritycheck (a : Activity) :
  appends (integritycheck FitFile gpxpy_parse a).
Proof.
  unfold integritycheck, dispatch.
  apply appends_try_except_else; [|appends_tac|appends_tac].
  destruct (String.eqb (extension a) "fit"); [apply appends_check_fit|].
  destruct (String.eqb (extension a) "gpx"); [apply appends_check_gpx|].
  apply appends_ret.
Qed.

Lemma appends_check_all (streams : list Activity) :
  appends (check_all FitFile gpxpy_parse streams).
Proof.
  unfold check_all. apply appends_for_each. intros x.
  apply appends_bind; [apply appends_integritycheck | appends_tac].
Qed.

Lemma appends_read_targets (targets : list string) (streams : list Activity) :
  appends (read_targets open_read targets streams).
Proof.
  revert streams. induction targets as [|file targets IH]; intros streams.
  - apply appends_ret.
  - cbn [read_targets]. destruct (skipped file).
    + apply appends_bind; [apply appends_LOG | intros _; apply IH].
    + apply appends_bind; [apply appends_lift | intros c; apply IH].
Qed.

Lemma appends_main (targets : list string) :
  appends (main FitFile gpxpy_parse open_read cpu_count targets).
Proof.
  unfold main. apply appends_bind; [apply appends_LOG | intros _].
  apply appends_bind; [apply appends_read_targets | intros streams].
  apply appends_check_all.
Qed.

(** Ends a case of a checker on the empty log: what is added is nothing
    or the record of the averages. *)
Ltac checker_case :=
  cbn;
  repeat match goal with
         | |- context [if ?b then _ else _] => destruct b
         end;
  intros [= <- <-];
  first [ now left
        | right; split; [reflexivity|];
          eexists; split; [eexists _, _; reflexivity | reflexivity] ].

(** What a checker adds to an empty log: nothing, or, when it returns,
    at most the record of the averages. *)
Lemma check_gpx_adds (a : Activity) (o : outcome unit) (d : log) :
  check_gpx gpxpy_parse a [] = (o, d) ->
  d = [] \/ (o = Returned tt
             /\ exists r, averages_record (name a) r /\ d = [r]).
Proof.
  unfold check_gpx, bind, try_except, lift, LOG_info, LOG_emit, ret, raise,
    logged.
  cbn [getvalue fst].
  destruct (PyBytes.decode_utf8 (buffer (fileobj a))) as [cps|e];
    [cbn [obind] | checker_case].
  destruct (gpxpy_parse cps) as [gpx|e]; [|checker_case].
  destruct (gpx_readings (name a) gpx) as [[ps hs]|e]; [|checker_case].
  destruct (PyNum.round_div (PyNum.sum ps) (PyNum.len ps)) as [p|e];
    [|checker_case].
  destruct (PyNum.round_div (PyNum.sum hs) (PyNum.len hs)) as [h|e];
    checker_case.
Qed.

Lemma check_fit_adds (a : Activity) (o : outcome unit) (d : log) :
  check_fit FitFile a [] = (o, d) ->
  d = [] \/ (o = Returned tt
             /\ exists r, averages_record (name a) r /\ d = [r]).
Proof.
  unfold check_fit, bind, try_except, lift, LOG_info, LOG_emit, ret, raise,
    logged.
  destruct (FitFile (fileobj a)) as [msgs|e]; [|checker_case].
  destruct (fit_readings (yielded msgs)) as [ps hs].
  destruct (failure msgs) as [e|]; [checker_case|].
  destruct (PyNum.sum_values ps) as [tp|e]; [|checker_case].
  destruct (PyNum.round_div tp (PyNum.len ps)) as [p|e]; [|checker_case].
  destruct (PyNum.sum_values hs) as [th|e]; [|checker_case].
  destruct (PyNum.round_div th (PyNum.len hs)) as [h|e]; checker_case.
Qed.

(** What one evaluation adds to the log, in every case. *)
Lemma integritycheck_adds (a : Activity) (o : outcome bool) (d : log) :
  integritycheck FitFile gpxpy_parse a [] = (o, d) ->
  match o with
  | Returned b => lines_of_check (name a) b d
  | Raised e => d = [] /\ is_ActivityDefective e = false
  end.
Proof.
  rewrite integritycheck_eq.
  assert (Adds : forall o' d',
             dispatch FitFile gpxpy_parse a [] = (o', d') ->
             d' = [] \/ (o' = Returned tt
                         /\ exists r, averages_record (name a) r /\ d' = [r])).
  { unfold dispatch.
    destruct (String.eqb (extension a) "fit"); [apply check_fit_adds|].
    destruct (String.eqb (extension a) "gpx"); [apply check_gpx_adds|].
    intros o' d' [= <- <-]. now left. }
  destruct (dispatch FitFile gpxpy_parse a []) as [[u|e] d'] eqn:E.
  - intros [= <- <-]. unfold lines_of_check, logged.
    exists (INFO, name a ++ " Integrity OK"). split; [reflexivity|].
    destruct (Adds _ _ eq_refl) as [-> | [_ [r [Hr ->]]]];
      [now left | right; now exists r].
  - destruct (Adds _ _ eq_refl) as [-> | [C _]]; [|discriminate].
    destruct (is_ActivityDefective e) eqn:D; intros [= <- <-].
    + unfold lines_of_check, logged.
      exists (ERROR, name a ++ " " ++ exn_str e).
      split; [now exists (exn_str e) | now left].
    + now split.
Qed.

(** The two loops of [check_fit] gather the values of the "power" fields
    and of the "heart_rate" fields, in order. *)
Lemma fit_fields_spec (record : DataMessage)
    (p h : list (option Z)) :
  fold_left fit_field record (p, h)
  = ((p ++ map value (filter is_power_field record))%list,
     (h ++ map value (filter is_heart_rate_field record))%list).
Proof.
  revert p h. induction record as [|d record IH]; intros p h.
  - simpl. now rewrite !app_nil_r.
  - cbn [fold_left filter]. unfold fit_field at 2.
    unfold is_power_field at 1, is_heart_rate_field at 1.
    destruct (String.eqb (field_name d) "power") eqn:P.
    + apply String.eqb_eq in P. rewrite P. cbn [String.eqb Ascii.eqb].
      rewrite IH. cbn. now rewrite <- app_assoc.
    + destruct (String.eqb (field_name d) "heart_rate") eqn:H.
      * rewrite IH. cbn [map]. now rewrite <- app_assoc.
      * apply IH.
Qed.

Lemma fit_readings_from (msgs : list DataMessage) (p h : list (option Z)) :
  fold_left (fun acc record => fold_left fit_field record acc) msgs (p, h)
  = ((p ++ power_values msgs)%list, (h ++ heart_rate_values msgs)%list).
Proof.
  unfold power_values, heart_rate_values.
  revert p h. induction msgs as [|m msgs IH]; intros p h.
  - simpl. now rewrite !app_nil_r.
  - cbn [fold_left List.concat]. rewrite fit_fields_spec, IH.
    rewrite !filter_app, !map_app, !app_assoc. reflexivity.
Qed.

Lemma fit_readings_spec (msgs : list DataMessage) :
  fit_readings msgs = (power_values msgs, heart_rate_values msgs).
Proof. unfold fit_readings. now rewrite fit_readings_from. Qed.

Lemma sum_values_none (l : list (option Z)) (acc : Z) :
  In None l -> PyNum.sum_values_from acc l = Raised TypeError.
Proof.
  revert acc. induction l as [|[v|] l IH]; intros acc H; simpl.
  - destruct H.
  - destruct H as [H | H]; [discriminate | now apply IH].
  - reflexivity.
Qed.

(** X1: the extension holds no period; a name without a period is its
    own extension; a name that ends in a period and a part without
    period has that part as its extension. *)
Theorem extension_is_after_last_period (a : Activity) :
  PyStr.contains "." (extension a) = false
  /\ (PyStr.contains "." (name a) = false -> extension a = name a)
  /\ (forall stem e,
         name a = stem ++ "." ++ e -> PyStr.contains "." e = false ->
         extension a = e).
Proof.
  unfold extension. split; [apply extension_decomposition|]. split.
  - intros H. now rewrite (split_no_dot _ H).
  - intros stem e -> H. now apply last_of_split_app.
Qed.

Lemma extension_of_suffix (a : Activity) (e : string) :
  PyStr.contains "." e = false ->
  PyStr.endswith (name a) ("." ++ e) = true -> extension a = e.
Proof.
  intros He H. apply endswith_spec in H. destruct H as [stem H].
  unfold extension. rewrite H. now apply last_of_split_app.
Qed.

Lemma suffix_of_extension (a : Activity) (e : string) :
  extension a = e ->
  name a = e \/ PyStr.endswith (name a) ("." ++ e) = true.
Proof.
  intros <-. unfold extension.
  destruct (extension_decomposition (name a)) as [_ [H | [stem H]]].
  - now left.
  - right. apply endswith_spec. now exists stem.
Qed.

(** X2: a target that the first loop of [main] accepts is sent to
    [check_fit] when its name ends in ".fit" in lower case, to
    [check_gpx] when it ends in ".gpx" in lower case, and to no checker
    otherwise: it then passes with "Integrity OK" whatever it holds. *)
Theorem accepted_target_dispatch (a : Activity) (l : log) :
  skipped (name a) = false ->
  dispatch FitFile gpxpy_parse a
  = (if PyStr.endswith (name a) ".fit" then check_fit FitFile a
     else if PyStr.endswith (name a) ".gpx" then check_gpx gpxpy_parse a
     else ret tt)
  /\ (PyStr.endswith (name a) ".fit" = false ->
      PyStr.endswith (name a) ".gpx" = false ->
      integritycheck FitFile gpxpy_parse a l
      = (Returned true, logged l INFO (name a ++ " Integrity OK"))).
Proof.
  intros Acc.
  assert (Nf : PyStr.endswith (name a) ".fit" = false ->
               String.eqb (extension a) "fit" = false).
  { intros H. apply String.eqb_neq. intros E.
    destruct (suffix_of_extension a "fit" E) as [N | S].
    - rewrite N in Acc. discriminate Acc.
    - change ("." ++ "fit") with ".fit" in S. congruence. }
  assert (Ng : PyStr.endswith (name a) ".gpx" = false ->
               String.eqb (extension a) "gpx" = false).
  { intros H. apply String.eqb_neq. intros E.
    destruct (suffix_of_extension a "gpx" E) as [N | S].
    - rewrite N in Acc. discriminate Acc.
    - change ("." ++ "gpx") with ".gpx" in S. congruence. }
  assert (D : dispatch FitFile gpxpy_parse a
              = (if PyStr.endswith (name a) ".fit" then check_fit FitFile a
                 else if PyStr.endswith (name a) ".gpx"
                 then check_gpx gpxpy_parse a
                 else ret tt)).
  { unfold dispatch.
    destruct (PyStr.endswith (name a) ".fit") eqn:F.
    - now rewrite (extension_of_suffix a "fit" eq_refl F).
    - rewrite (Nf eq_refl).
      destruct (PyStr.endswith (name a) ".gpx") eqn:G.
      + now rewrite (extension_of_suffix a "gpx" eq_refl G).
      + now rewrite (Ng eq_refl). }
  split; [exact D|].
  intros F G. rewrite integritycheck_eq, D, F, G. reflexivity.
Qed.

(** X3: an error of [fitparse] in the middle of the records (bad CRC,
    parse error, end of file, header of a chained file) becomes the
    classified failure with the library's message, whatever was read
    before it; no average is logged and the evaluator returns false. *)
Theorem fit_stream_error_is_defective (a : Activity) (l : log)
    (msgs : FitMessages) (e : exn) :
  FitFile (fileobj a) = Returned msgs ->
  failure msgs = Some e ->
  is_fit_error e = true ->
  check_fit FitFile a l = (Raised (ActivityDefective (exn_str e)), l)
  /\ (extension a = "fit" ->
      integritycheck FitFile gpxpy_parse a l
      = (Returned false, logged l ERROR (name a ++ " " ++ exn_str e))).
Proof.
  intros Ho Hf He.
  assert (C : check_fit FitFile a l
              = (Raised (ActivityDefective (exn_str e)), l)).
  { step_into check_fit. rewrite Ho. cbn. rewrite Hf.
    destruct (fit_readings (yielded msgs)). unfold raise. now rewrite He. }
  split; [exact C|].
  intros X. rewrite integritycheck_eq, (dispatch_fit _ _ a X), C.
  reflexivity.
Qed.

(** X4: only [FitHeaderError] is caught around [FitFile(...)]: any other
    exception it raises, one of [fitparse]'s own included, leaves
    [check_fit] as it is, and leaves the evaluator too. *)
Theorem fit_open_error_escapes (a : Activity) (l : log) (e : exn) :
  FitFile (fileobj a) = Raised e ->
  is_FitHeaderError e = false ->
  check_fit FitFile a l = (Raised e, l)
  /\ (extension a = "fit" -> is_ActivityDefective e = false ->
      integritycheck FitFile gpxpy_parse a l = (Raised e, l)).
Proof.
  intros Ho He.
  assert (C : check_fit FitFile a l = (Raised e, l)).
  { step_into check_fit. now rewrite Ho, He. }
  split; [exact C|].
  intros X D. rewrite integritycheck_eq, (dispatch_fit _ _ a X), C, D.
  reflexivity.
Qed.

(** X5: a .fit file that parses to the end, with integer power values
    [ps] and heart rates [hs], both non-empty and with sums below 2^52
    in absolute value: [check_fit] logs the integers nearest to the two
    means (ties to even) and returns; the evaluator adds "Integrity OK"
    and returns true. *)
Theorem fit_averages_reported (a : Activity) (l : log) (msgs : FitMessages)
    (ps hs : list Z) :
  FitFile (fileobj a) = Returned msgs ->
  failure msgs = None ->
  power_values (yielded msgs) = map Some ps ->
  heart_rate_values (yielded msgs) = map Some hs ->
  ps <> [] -> hs <> [] ->
  Z.abs (PyNum.sum ps) < 2 ^ 52 -> Z.abs (PyNum.sum hs) < 2 ^ 52 ->
  let line :=
    averages_line (name a)
      (PyNum.nearest_even (PyNum.sum ps) (PyNum.len ps))
      (PyNum.nearest_even (PyNum.sum hs) (PyNum.len hs)) in
  check_fit FitFile a l = (Returned tt, logged l INFO line)
  /\ (extension a = "fit" ->
      integritycheck FitFile gpxpy_parse a l
      = (Returned true,
         logged (logged l INFO line) INFO (name a ++ " Integrity OK"))).
Proof.
  intros Ho Hf Hp Hh Np Nh Bp Bh line.
  assert (C : check_fit FitFile a l = (Returned tt, logged l INFO line)).
  { rewrite (check_fit_opened _ a l msgs Ho Hf), fit_readings_spec, Hp, Hh.
    rewrite !sum_values_ints, !len_map. cbn [obind].
    rewrite (round_div_exact _ _ (len_positive ps Np) Bp),
      (round_div_exact _ _ (len_positive hs Nh) Bh). reflexivity. }
  split; [exact C|].
  intros X. rewrite integritycheck_eq, (dispatch_fit _ _ a X), C.
  reflexivity.
Qed.

(** X6: a power field whose value is [None] (the file marks it invalid)
    makes [sum] fail: [TypeError] leaves [check_fit] and the evaluator,
    whatever the other fields hold. *)
Theorem fit_invalid_power_is_type_error (a : Activity) (l : log)
    (msgs : FitMessages) :
  FitFile (fileobj a) = Returned msgs ->
  failure msgs = None ->
  In None (power_values (yielded msgs)) ->
  check_fit FitFile a l = (Raised TypeError, l)
  /\ (extension a = "fit" ->
      integritycheck FitFile gpxpy_parse a l = (Raised TypeError, l)).
Proof.
  intros Ho Hf Hn.
  assert (C : check_fit FitFile a l = (Raised TypeError, l)).
  { rewrite (check_fit_opened _ a l msgs Ho Hf), fit_readings_spec.
    unfold PyNum.sum_values at 1. rewrite (sum_values_none _ 0 Hn).
    reflexivity. }
  split; [exact C|].
  intros X. rewrite integritycheck_eq, (dispatch_fit _ _ a X), C.
  reflexivity.
Qed.

(** [int()] raises nothing but [TypeError] and [ValueError]. *)
Lemma int_raises (t : option string) (e : exn) :
  PyNum.int t = Raised e -> e = TypeError \/ e = ValueError.
Proof.
  unfold PyNum.int. destruct t as [s|]; [|intros [= <-]; now left].
  destruct (match PyNum.lstrip s with
            | String "+" s' => PyNum.unsigned_literal s'
            | String "-" s' => option_map Z.opp (PyNum.unsigned_literal s')
            | s' => PyNum.unsigned_literal s'
            end); [|intros [= <-]; now right].
  destruct (PyNum.max_str_digits <? PyNum.digit_count s);
    [intros [= <-]; now right | discriminate].
Qed.

(** [int()] reads no literal of more than 4300 digits. *)
Lemma int_digit_count (s : string) (z : Z) :
  PyNum.int (Some s) = Returned z ->
  PyNum.digit_count s <= PyNum.max_str_digits.
Proof.
  unfold PyNum.int.
  destruct (match PyNum.lstrip s with
            | String "+" s' => PyNum.unsigned_literal s'
            | String "-" s' => option_map Z.opp (PyNum.unsigned_literal s')
            | s' => PyNum.unsigned_literal s'
            end); [|discriminate].
  destruct (Z.ltb_spec PyNum.max_str_digits (PyNum.digit_count s));
    [discriminate | intros _; assumption].
Qed.

Lemma ofold_raises {A B} (f : A -> B -> outcome A) (P : exn -> Prop)
    (xs : list B) (acc : A) (e : exn) :
  (forall a x e', f a x = Raised e' -> P e') ->
  ofold f xs acc = Raised e -> P e.
Proof.
  intros H. revert acc. induction xs as [|x xs IH]; intros acc; simpl.
  - discriminate.
  - destruct (f acc x) as [acc'|e'] eqn:E; simpl.
    + apply IH.
    + intros [= <-]. now apply (H acc x).
Qed.

Lemma gpx_kid_raises (h : list Z) (kid : Element) (e : exn) :
  gpx_kid h kid = Raised e -> e = TypeError \/ e = ValueError.
Proof.
  unfold gpx_kid. destruct (String.eqb (tag kid) (schema ++ "hr"));
    [|discriminate].
  destruct (PyNum.int (text kid)) as [v|e'] eqn:E; cbn [obind];
    [discriminate|].
  intros [= <-]. now apply int_raises with (text kid).
Qed.

Lemma gpx_extension_raises (acc : readings) (x : Element) (e : exn) :
  gpx_extension acc x = Raised e -> e = TypeError \/ e = ValueError.
Proof.
  unfold gpx_extension. destruct acc as [p h].
  assert (Kids : forall h0,
             (if String.eqb (tag x) (schema ++ "TrackPointExtension")
              then ofold gpx_kid (children x) h0
              else Returned h0) = Raised e ->
             e = TypeError \/ e = ValueError).
  { intros h0.
    destruct (String.eqb (tag x) (schema ++ "TrackPointExtension"));
      [|discriminate].
    exact (ofold_raises gpx_kid _ _ _ _ gpx_kid_raises). }
  destruct (String.eqb (tag x) "power").
  - destruct (PyNum.int (text x)) as [v|e'] eqn:E; cbn [obind].
    + destruct (if String.eqb (tag x) (schema ++ "TrackPointExtension")
                then _ else _) as [h'|e'] eqn:K; cbn [obind];
        [discriminate|].
      intros [= <-]. exact (Kids h K).
    + intros [= <-]. now apply int_raises with (text x).
  - cbn [obind].
    destruct (if String.eqb (tag x) (schema ++ "TrackPointExtension")
              then _ else _) as [h'|e'] eqn:K; cbn [obind];
      [discriminate|].
    intros [= <-]. exact (Kids h K).
Qed.

Lemma map_Returned_all {A} (f : option string -> outcome A)
    (ts : list (option string)) (xs : list A) (t : option string) (e : exn) :
  map f ts = map Returned xs -> In t ts -> f t <> Raised e.
Proof.
  revert xs. induction ts as [|t' ts IH]; intros [|x xs] H Hin;
    simpl in *; try discriminate; try contradiction.
  injection H as Hx H. destruct Hin as [-> | Hin].
  - rewrite Hx. discriminate.
  - now apply IH with xs.
Qed.

(** A reading element whose text is not an integer stops the loops of a
    "ride" file with the exception of [int()]. *)
Lemma gpx_readings_bad_text (file_name : string) (gpx : GPX)
    (t : option string) (e0 : exn) :
  PyStr.contains "ride" (PyStr.lower file_name) = true ->
  In t (power_texts (all_extensions gpx) ++ hr_texts (all_extensions gpx)) ->
  PyNum.int t = Raised e0 ->
  exists e, (e = TypeError \/ e = ValueError)
            /\ gpx_readings file_name gpx = Raised e.
Proof.
  intros Hride Hin Ht.
  destruct (gpx_readings file_name gpx) as [[ps hs]|e] eqn:R.
  - exfalso. apply (gpx_readings_spec file_name gpx ps hs Hride) in R.
    destruct R as [Rp Rh]. apply in_app_or in Hin.
    destruct Hin as [Hin | Hin].
    + exact (map_Returned_all _ _ _ t e0 Rp Hin Ht).
    + exact (map_Returned_all _ _ _ t e0 Rh Hin Ht).
  - exists e. split; [|reflexivity].
    rewrite (gpx_readings_ride file_name gpx Hride) in R.
    exact (ofold_raises gpx_extension _ _ _ _ gpx_extension_raises R).
Qed.

(** X7: in a "ride" file that parses, a power or hr element whose text is
    not an integer (or is absent) is not a classified failure: the
    [ValueError] or [TypeError] of [int()] leaves [check_gpx] and the
    evaluator, with nothing logged. *)
Theorem gpx_bad_reading_escapes (a : Activity) (l : log) (cps : list N)
    (gpx : GPX) (t : option string) (e0 : exn) :
  PyStr.contains "ride" (PyStr.lower (name a)) = true ->
  PyBytes.decode_utf8 (buffer (fileobj a)) = Returned cps ->
  gpxpy_parse cps = Returned gpx ->
  In t (power_texts (all_extensions gpx) ++ hr_texts (all_extensions gpx)) ->
  PyNum.int t = Raised e0 ->
  exists e,
    (e = TypeError \/ e = ValueError)
    /\ check_gpx gpxpy_parse a l = (Raised e, l)
    /\ (extension a = "gpx" ->
        integritycheck FitFile gpxpy_parse a l = (Raised e, l)).
Proof.
  intros Hride Hd Hp Hin Ht.
  destruct (gpx_readings_bad_text (name a) gpx t e0 Hride Hin Ht)
    as [e [Kind R]].
  exists e. split; [exact Kind|].
  assert (C : check_gpx gpxpy_parse a l = (Raised e, l)).
  { rewrite (check_gpx_parsed _ a l cps gpx Hd Hp), R.
    destruct Kind as [-> | ->]; reflexivity. }
  split; [exact C|].
  intros X. rewrite integritycheck_eq, (dispatch_gpx _ _ a X), C.
  destruct Kind as [-> | ->]; reflexivity.
Qed.

(** A text with a byte that UTF-8 never uses does not decode. *)
Lemma utf8_points_never (n : nat) (bs : list N) :
  (List.length bs <= n)%nat ->
  Exists (fun b => never_in_utf8 b = true) bs ->
  PyBytes.utf8_points bs = None.
Proof.
  revert bs. induction n as [|n IH]; intros bs Hlen Hex.
  - destruct bs; [inversion Hex | simpl in Hlen; lia].
  - destruct bs as [|b0 r0]; [inversion Hex|].
    assert (Tail : forall r, (List.length r <= n)%nat ->
                             Exists (fun b => never_in_utf8 b = true) r ->
                             forall f : list N -> list N,
                               option_map f (PyBytes.utf8_points r) = None).
    { intros r Hr Er f. now rewrite (IH r Hr Er). }
    assert (Cont : forall b, PyBytes.is_cont b = true ->
                             never_in_utf8 b = false).
    { intros b. unfold PyBytes.is_cont, never_in_utf8.
      destruct (N.leb_spec 0x80 b), (N.leb_spec b 0xBF); try discriminate.
      intros _. destruct (N.eqb_spec b 0xC0), (N.eqb_spec b 0xC1),
        (N.leb_spec 0xF5 b); try reflexivity; lia. }
    assert (Range : forall lo hi b,
               (0x80 <= lo)%N -> (hi <= 0xBF)%N ->
               PyBytes.in_range lo hi b = true -> never_in_utf8 b = false).
    { intros lo hi b Hlo Hhi. unfold PyBytes.in_range, never_in_utf8.
      destruct (N.leb_spec lo b), (N.leb_spec b hi); try discriminate.
      intros _. destruct (N.eqb_spec b 0xC0), (N.eqb_spec b 0xC1),
        (N.leb_spec 0xF5 b); try reflexivity; lia. }
    simpl in Hlen.
    cbn [PyBytes.utf8_points].
    destruct (N.ltb_spec b0 0x80) as [L1|L1].
    { inversion Hex as [? ? H0 | ? ? H0]; subst.
      - exfalso. unfold never_in_utf8 in H0.
        destruct (N.eqb_spec b0 0xC0), (N.eqb_spec b0 0xC1),
          (N.leb_spec 0xF5 b0); try discriminate; lia.
      - apply Tail; [lia | assumption]. }
    destruct (N.ltb_spec b0 0xC2) as [L2|L2]; [reflexivity|].
    destruct (N.ltb_spec b0 0xE0) as [L3|L3].
    { destruct r0 as [|b1 r1]; [reflexivity|].
      destruct (PyBytes.is_cont b1) eqn:C1; [|reflexivity].
      simpl in Hlen. apply Tail; [lia|].
      inversion Hex as [? ? H0 | ? ? H0]; subst.
      - exfalso. unfold never_in_utf8 in H0.
        destruct (N.eqb_spec b0 0xC0), (N.eqb_spec b0 0xC1),
          (N.leb_spec 0xF5 b0); try discriminate; lia.
      - inversion H0 as [? ? H1 | ? ? H1]; subst; [|assumption].
        rewrite (Cont _ C1) in H1. discriminate. }
    destruct (N.ltb_spec b0 0xF0) as [L4|L4].
    { destruct r0 as [|b1 [|b2 r2]]; try reflexivity.
      destruct (PyBytes.in_range _ _ b1) eqn:C1; [|reflexivity].
      destruct (PyBytes.is_cont b2) eqn:C2; [|reflexivity].
      cbn [andb]. simpl in Hlen. apply Tail; [lia|].
      inversion Hex as [? ? H0 | ? ? H0]; subst.
      - exfalso. unfold never_in_utf8 in H0.
        destruct (N.eqb_spec b0 0xC0), (N.eqb_spec b0 0xC1),
          (N.leb_spec 0xF5 b0); try discriminate; lia.
      - inversion H0 as [? ? H1 | ? ? H1]; subst.
        + exfalso. apply Range in C1.
          * congruence.
          * destruct (N.eqb b0 0xE0); lia.
          * destruct (N.eqb b0 0xED); lia.
        + inversion H1 as [? ? H2 | ? ? H2]; subst; [|assumption].
          rewrite (Cont _ C2) in H2. discriminate. }
    destruct (N.ltb_spec b0 0xF5) as [L5|L5]; [|reflexivity].
    destruct r0 as [|b1 [|b2 [|b3 r3]]]; try reflexivity.
    destruct (PyBytes.in_range _ _ b1) eqn:C1; [|reflexivity].
    destruct (PyBytes.is_cont b2) eqn:C2; [|reflexivity].
    destruct (PyBytes.is_cont b3) eqn:C3; [|reflexivity].
    cbn [andb]. simpl in Hlen. apply Tail; [lia|].
    inversion Hex as [? ? H0 | ? ? H0]; subst.
    + exfalso. unfold never_in_utf8 in H0.
      destruct (N.eqb_spec b0 0xC0), (N.eqb_spec b0 0xC1),
        (N.leb_spec 0xF5 b0); try discriminate; lia.
    + inversion H0 as [? ? H1 | ? ? H1]; subst.
      * exfalso. apply Range in C1.
        -- congruence.
        -- destruct (N.eqb b0 0xF0); lia.
        -- destruct (N.eqb b0 0xF4); lia.
      * inversion H1 as [? ? H2 | ? ? H2]; subst.
        -- rewrite (Cont _ C2) in H2. discriminate.
        -- inversion H2 as [? ? H3 | ? ? H3]; subst; [|assumption].
           rewrite (Cont _ C3) in H3. discriminate.
Qed.

(** X8: a file sent to [check_gpx] that holds, anywhere, a byte UTF-8
    never uses (0xC0, 0xC1, 0xF5 to 0xFF: a UTF-16 byte order mark, for
    one) is not failed: [UnicodeDecodeError] leaves [check_gpx] whatever
    the parser would do, and leaves the evaluator. *)
Theorem gpx_impossible_byte_aborts (a : Activity) (l : log) :
  Exists (fun b => never_in_utf8 (Byte.to_N b) = true)
         (buffer (fileobj a)) ->
  check_gpx gpxpy_parse a l = (Raised UnicodeDecodeError, l)
  /\ (extension a = "gpx" ->
      integritycheck FitFile gpxpy_parse a l
      = (Raised UnicodeDecodeError, l)).
Proof.
  intros H.
  assert (D : PyBytes.decode_utf8 (buffer (fileobj a))
              = Raised UnicodeDecodeError).
  { unfold PyBytes.decode_utf8.
    rewrite (utf8_points_never _ _ (le_n _)); [reflexivity|].
    apply Exists_exists in H. destruct H as [b [Hin Hb]].
    apply Exists_exists. exists (Byte.to_N b). split; [|exact Hb].
    now apply in_map. }
  assert (C : check_gpx gpxpy_parse a l = (Raised UnicodeDecodeError, l)).
  { step_into check_gpx. cbn [getvalue fst]. now rewrite D. }
  split; [exact C|].
  intros X. rewrite integritycheck_eq, (dispatch_gpx _ _ a X), C.
  reflexivity.
Qed.

(** X9: what the evaluator returns for an activity and the records it
    adds to the log do not depend on the log so far (so not on the files
    evaluated before); when it returns it adds the verdict record, alone
    or after one record of averages; when an exception leaves it, it has
    added nothing. *)
Theorem evaluation_is_self_contained (a : Activity) :
  exists o d,
    (forall l, integritycheck FitFile gpxpy_parse a l = (o, (l ++ d)%list))
    /\ match o with
       | Returned b => lines_of_check (name a) b d
       | Raised e => d = [] /\ is_ActivityDefective e = false
       end.
Proof.
  exists (fst (integritycheck FitFile gpxpy_parse a [])),
         (snd (integritycheck FitFile gpxpy_parse a [])).
  split; [apply appends_integritycheck|].
  apply integritycheck_adds. apply surjective_pairing.
Qed.

(** The second loop of [main] when no evaluation raises. *)
Lemma check_all_classified (streams : list Activity) (l : log) :
  Forall (fun a => exists b d,
              integritycheck FitFile gpxpy_parse a [] = (Returned b, d))
         streams ->
  exists chunks,
    check_all FitFile gpxpy_parse streams l
    = (Returned tt, (l ++ List.concat chunks)%list)
    /\ Forall2 (fun a chunk =>
                  exists b,
                    fst (integritycheck FitFile gpxpy_parse a [])
                    = Returned b
                    /\ lines_of_check (name a) b chunk)
               streams chunks.
Proof.
  intros H. revert l. induction H as [|a streams [b [d Ha]] _ IH]; intros l.
  - exists []. split; [|constructor].
    unfold check_all. simpl. unfold ret. now rewrite app_nil_r.
  - destruct (IH (l ++ d)%list) as [chunks [Hrest Hchunks]].
    exists (d :: chunks). split.
    + unfold check_all in *. cbn [for_each]. unfold bind at 1 2.
      rewrite (appends_integritycheck a l), Ha. cbn [fst snd].
      unfold ret at 1. rewrite Hrest. cbn [List.concat].
      now rewrite app_assoc.
    + constructor; [|exact Hchunks].
      exists b. split; [now rewrite Ha|].
      exact (integritycheck_adds a (Returned b) d Ha).
Qed.

(** [main] when every file it opens can be read. *)
Lemma main_readable (targets : list string) (l : log) :
  Forall (readable open_read) (filter eligible targets) ->
  main FitFile gpxpy_parse open_read cpu_count targets l
  = check_all FitFile gpxpy_parse
      (activities_of (content_of open_read) targets)
      (logged l DEBUG ("CPU count: " ++ PyStr.of_int cpu_count)
         ++ skip_notes targets)%list.
Proof.
  intros H. unfold main. unfold bind at 1, LOG_debug, LOG_emit.
  rewrite (bind_returned _ _ _ _ _
             (read_targets_readable open_read targets [] _ H)).
  reflexivity.
Qed.

(** X10: when every accepted file can be read and no evaluation raises,
    [main] returns, whatever the verdicts: a file that fails does not
    stop the batch.  The log gets the processor count, the skip notes,
    and then for each Activity in order its own records, ending in its
    verdict. *)
Theorem batch_runs_to_the_end (targets : list string) (l : log) :
  Forall (readable open_read) (filter eligible targets) ->
  Forall (fun a => exists b d,
              integritycheck FitFile gpxpy_parse a [] = (Returned b, d))
         (activities_of (content_of open_read) targets) ->
  exists chunks,
    main FitFile gpxpy_parse open_read cpu_count targets l
    = (Returned tt,
       ((logged l DEBUG ("CPU count: " ++ PyStr.of_int cpu_count)
           ++ skip_notes targets) ++ List.concat chunks)%list)
    /\ Forall2 (fun a chunk =>
                  exists b,
                    fst (integritycheck FitFile gpxpy_parse a [])
                    = Returned b
                    /\ lines_of_check (name a) b chunk)
               (activities_of (content_of open_read) targets) chunks.
Proof.
  intros Hr Hc. rewrite (main_readable targets l Hr).
  now apply check_all_classified.
Qed.

(** The first loop of [main] over targets of which the first ones can be
    read. *)
Lemma read_targets_app (before rest : list string)
    (streams : list Activity) (l : log) :
  Forall (readable open_read) (filter eligible before) ->
  read_targets open_read (before ++ rest) streams l
  = read_targets open_read rest
      (streams ++ activities_of (content_of open_read) before)%list
      (l ++ skip_notes before)%list.
Proof.
  revert streams l. induction before as [|file before IH];
    intros streams l H.
  - unfold activities_of, skip_notes. simpl. now rewrite !app_nil_r.
  - cbn [app read_targets]. rewrite skipped_eligible.
    unfold activities_of, skip_notes in *. cbn [filter] in *.
    destruct (eligible file) eqn:E; cbn [negb].
    + inversion H as [|? ? [content Hc] H']; subst.
      unfold bind at 1, lift. rewrite Hc.
      rewrite (IH _ _ H'). cbn [map]. unfold content_of at 2.
      rewrite Hc, <- app_assoc. reflexivity.
    + unfold bind at 1, LOG_debug, LOG_emit, logged.
      rewrite (IH _ _ H). cbn [map]. rewrite <- app_assoc. reflexivity.
Qed.

(** X11: every accepted file is read before any is evaluated: when one
    of them cannot be opened, the exception leaves [main] with no file
    evaluated, not even those read before it; the log holds the processor
    count and the skip notes up to that file. *)
Theorem unreadable_target_stops_the_run (before after : list string)
    (file : string) (l : log) (e : exn) :
  Forall (readable open_read) (filter eligible before) ->
  skipped file = false ->
  open_read file = Raised e ->
  main FitFile gpxpy_parse open_read cpu_count
       (before ++ file :: after) l
  = (Raised e,
     (logged l DEBUG ("CPU count: " ++ PyStr.of_int cpu_count)
        ++ skip_notes before)%list).
Proof.
  intros Hb Hs Ho. unfold main. unfold bind at 1, LOG_debug, LOG_emit.
  apply bind_raised. rewrite (read_targets_app before _ _ _ Hb).
  cbn [read_targets]. rewrite Hs. unfold bind, lift. now rewrite Ho.
Qed.

(** The loops of the script over arguments that are all scanned to the
    end. *)
Lemma scan_args_all (arg files : list string) :
  Forall (fun a => scan_failure (scandir a) = None) arg ->
  scan_args scandir arg files
  = Returned (files ++ flat_map (fun a => entries (scandir a)) arg)%list.
Proof.
  intros H. revert files. induction H as [|a arg Ha _ IH]; intros files.
  - simpl. now rewrite app_nil_r.
  - cbn [scan_args flat_map]. rewrite Ha, IH. now rewrite app_assoc.
Qed.

Lemma scan_args_fails (before after : list string) (a : string)
    (files : list string) (e : exn) :
  Forall (fun a => scan_failure (scandir a) = None) before ->
  scan_failure (scandir a) = Some e ->
  scan_args scandir (before ++ a :: after) files = Raised e.
Proof.
  intros H Ha. revert files. induction H as [|b before Hb _ IH];
    intros files.
  - simpl. now rewrite Ha.
  - cbn [app scan_args]. rewrite Hb. apply IH.
Qed.

(** X12: when every argument is a directory that is scanned to the end,
    the script logs the number of entries found and runs [main] on the
    paths of the entries of all the directories, in order. *)
Theorem script_scans_directories (arg : list string) (l : log) :
  Forall (fun a => scan_failure (scandir a) = None) arg ->
  let files := flat_map (fun a => entries (scandir a)) arg in
  script FitFile gpxpy_parse open_read cpu_count scandir arg l
  = main FitFile gpxpy_parse open_read cpu_count files
         (logged l INFO (files_found_line files)).
Proof.
  intros H files. unfold script, bind, try_except, lift.
  rewrite (scan_args_all arg [] H). reflexivity.
Qed.

(** X13: as soon as one argument is not a directory, the entries gathered
    from the directories before it are dropped: the script runs [main] on
    the arguments themselves, directories among them included. *)
Theorem script_falls_back_to_arguments (before after : list string)
    (a : string) (l : log) (e : exn) :
  Forall (fun a => scan_failure (scandir a) = None) before ->
  scan_failure (scandir a) = Some e ->
  is_NotADirectoryError e = true ->
  let arg := (before ++ a :: after)%list in
  script FitFile gpxpy_parse open_read cpu_count scandir arg l
  = main FitFile gpxpy_parse open_read cpu_count arg
         (logged l INFO (files_found_line arg)).
Proof.
  intros H Ha He arg. unfold script, bind, try_except, lift.
  unfold arg. rewrite (scan_args_fails before after a [] e H Ha), He.
  reflexivity.
Qed.

(** X14: any other exception of the scan (a path that does not exist, a
    directory that may not be read) leaves the script before anything is
    logged or evaluated. *)
Theorem script_scan_error_escapes (before after : list string)
    (a : string) (l : log) (e : exn) :
  Forall (fun a => scan_failure (scandir a) = None) before ->
  scan_failure (scandir a) = Some e ->
  is_NotADirectoryError e = false ->
  script FitFile gpxpy_parse open_read cpu_count scandir
         (before ++ a :: after) l
  = (Raised e, l).
Proof.
  intros H Ha He. unfold script, bind, try_except, lift.
  rewrite (scan_args_fails before after a [] e H Ha), He. reflexivity.
Qed.

End Frame.

(** ** The form of the digest *)

Lemma le_bytes_length (n : nat) (x : N) :
  List.length (PyBytes.le_bytes n x) = n.
Proof.
  revert x. induction n as [|n IH]; intros x; simpl; [reflexivity|].
  now rewrite IH.
Qed.

Lemma le_bytes_small (n : nat) (x : N) :
  Forall (fun b => (b < 256)%N) (PyBytes.le_bytes n x).
Proof.
  revert x. induction n as [|n IH]; intros x; simpl; constructor.
  - change 0xFF%N with (N.ones 8). rewrite N.land_ones.
    apply N.mod_lt. discriminate.
  - apply IH.
Qed.

Lemma md5_digest_form (msg : list N) :
  List.length (PyBytes.md5_digest msg) = 16%nat
  /\ Forall (fun b => (b < 256)%N) (PyBytes.md5_digest msg).
Proof.
  unfold PyBytes.md5_digest.
  destruct (fold_left PyBytes.md5_block _ PyBytes.md5_init)
    as [[[a b] c] d].
  split.
  - rewrite !length_app, !le_bytes_length. reflexivity.
  - repeat (apply Forall_app; split); apply le_bytes_small.
Qed.

Lemma hex_digit_lower (n : N) :
  (n < 16)%N -> is_lower_hex (PyBytes.hex_digit n) = true.
Proof.
  intros H.
  assert (E : exists k, (k < 16)%nat /\ n = N.of_nat k).
  { exists (N.to_nat n). split; [lia | now rewrite N2Nat.id]. }
  destruct E as [k [Hk ->]].
  do 16 (destruct k as [|k]; [reflexivity|]). lia.
Qed.

Lemma hex_form (bs : list N) :
  Forall (fun b => (b < 256)%N) bs ->
  String.length (PyBytes.hex bs) = (2 * List.length bs)%nat
  /\ all_chars is_lower_hex (PyBytes.hex bs) = true.
Proof.
  induction 1 as [|b bs Hb _ [IHl IHc]]; [now split|].
  cbn [PyBytes.hex String.length all_chars List.length]. split.
  - rewrite IHl. lia.
  - rewrite IHc, !hex_digit_lower; [reflexivity | |].
    + apply N.mod_lt. discriminate.
    + apply N.Div0.div_lt_upper_bound. exact Hb.
Qed.

(** X15: the digest that [md5sum] returns is a string of 32 characters,
    each one of [0123456789abcdef], whatever the file holds. *)
Theorem md5sum_is_32_hex_digits (a : Activity) :
  String.length (fst (md5sum a)) = 32%nat
  /\ all_chars is_lower_hex (fst (md5sum a)) = true.
Proof.
  rewrite md5sum_digest. unfold PyBytes.md5_hexdigest.
  destruct (md5_digest_form (map Byte.to_N (buffer (fileobj a))))
    as [L S].
  destruct (hex_form _ S) as [HL HC]. rewrite HL, L. now split.
Qed.

(** ** The further properties at concrete inputs *)

Lemma extension_witness :
  let a := Samples.activity "a.b.gpx" [] in
  name a = "a.b" ++ "." ++ "gpx"
  /\ PyStr.contains "." "gpx" = false
  /\ extension a = "gpx".
Proof.
  intros a. split; [reflexivity|]. split; [reflexivity|].
  exact (proj2 (proj2 (extension_is_after_last_period a))
               "a.b" "gpx" eq_refl eq_refl).
Defined.

Lemma accepted_target_witness :
  let a := Samples.activity "course.GPX" Samples.some_bytes in
  let FitFile := Samples.FitFile_reads Samples.no_messages in
  let gpxpy_parse := Samples.gpxpy_rejects "mismatched tag" in
  skipped (name a) = false
  /\ PyStr.endswith (name a) ".fit" = false
  /\ PyStr.endswith (name a) ".gpx" = false
  /\ integritycheck FitFile gpxpy_parse a []
     = (Returned true, [(INFO, "course.GPX Integrity OK")]).
Proof.
  intros a FitFile gpxpy_parse.
  split; [reflexivity|]. split; [reflexivity|]. split; [reflexivity|].
  exact (proj2 (accepted_target_dispatch FitFile gpxpy_parse a [] eq_refl)
               eq_refl eq_refl).
Defined.

Lemma fit_stream_error_witness :
  let a := Samples.activity "ride1.fit" Samples.some_bytes in
  let FitFile := Samples.FitFile_reads Cases.crc_failure in
  let gpxpy_parse := Samples.gpxpy_reads Samples.power_only in
  FitFile (fileobj a) = Returned Cases.crc_failure
  /\ failure Cases.crc_failure = Some (FitCRCError "CRC Mismatch")
  /\ is_fit_error (FitCRCError "CRC Mismatch") = true
  /\ integritycheck FitFile gpxpy_parse a []
     = (Returned false, [(ERROR, "ride1.fit CRC Mismatch")]).
Proof.
  intros a FitFile gpxpy_parse.
  split; [reflexivity|]. split; [reflexivity|]. split; [reflexivity|].
  exact (proj2 (fit_stream_error_is_defective FitFile gpxpy_parse a []
                  Cases.crc_failure (FitCRCError "CRC Mismatch")
                  eq_refl eq_refl eq_refl) eq_refl).
Defined.

Lemma fit_open_error_witness :
  let a := Samples.activity "empty.fit" [] in
  let e := FitEOFError "Tried to read 12 bytes from .FIT file but got 0" in
  let gpxpy_parse := Samples.gpxpy_reads Samples.power_only in
  Cases.FitFile_eof (fileobj a) = Raised e
  /\ is_FitHeaderError e = false
  /\ integritycheck Cases.FitFile_eof gpxpy_parse a [] = (Raised e, []).
Proof.
  intros a e gpxpy_parse.
  split; [reflexivity|]. split; [reflexivity|].
  exact (proj2 (fit_open_error_escapes Cases.FitFile_eof gpxpy_parse a []
                  e eq_refl eq_refl) eq_refl eq_refl).
Defined.

Lemma fit_averages_witness :
  let a := Samples.activity "ride1.fit" Samples.some_bytes in
  let FitFile := Samples.FitFile_reads Samples.three_records in
  power_values (yielded Samples.three_records)
  = map Some [100; 150; 200]
  /\ heart_rate_values (yielded Samples.three_records)
     = map Some [120; 125; 131]
  /\ check_fit FitFile a []
     = (Returned tt,
        [(INFO, "ride1.fit Average Power: 150, Average HR: 125")]).
Proof.
  intros a FitFile.
  split; [reflexivity|]. split; [reflexivity|].
  assert (Np : [100; 150; 200] <> []) by (intros N; inversion N).
  assert (Nh : [120; 125; 131] <> []) by (intros N; inversion N).
  exact (proj1 (fit_averages_reported FitFile
                  (Samples.gpxpy_reads Samples.power_only) a []
                  Samples.three_records [100; 150; 200] [120; 125; 131]
                  eq_refl eq_refl eq_refl eq_refl Np Nh eq_refl eq_refl)).
Defined.

Lemma fit_invalid_power_witness :
  let a := Samples.activity "ride1.fit" Samples.some_bytes in
  let FitFile := Samples.FitFile_reads Cases.invalid_power in
  let gpxpy_parse := Samples.gpxpy_reads Samples.power_only in
  In None (power_values (yielded Cases.invalid_power))
  /\ integritycheck FitFile gpxpy_parse a [] = (Raised TypeError, []).
Proof.
  intros a FitFile gpxpy_parse.
  assert (H : In None (power_values (yielded Cases.invalid_power)))
    by (left; reflexivity).
  split; [exact H|].
  exact (proj2 (fit_invalid_power_is_type_error FitFile gpxpy_parse a []
                  Cases.invalid_power eq_refl eq_refl H) eq_refl).
Defined.

Lemma gpx_bad_reading_witness :
  let a := Samples.activity "ride1.gpx" Samples.some_bytes in
  let FitFile := Samples.FitFile_reads Samples.no_messages in
  let gpxpy_parse := Samples.gpxpy_reads Cases.decimal_power in
  PyNum.int (Some "12.5") = Raised ValueError
  /\ exists e,
      (e = TypeError \/ e = ValueError)
      /\ check_gpx gpxpy_parse a [] = (Raised e, [])
      /\ (extension a = "gpx" ->
          integritycheck FitFile gpxpy_parse a [] = (Raised e, [])).
Proof.
  intros a FitFile gpxpy_parse.
  split; [reflexivity|].
  apply (gpx_bad_reading_escapes FitFile gpxpy_parse a []
           (map Byte.to_N Samples.some_bytes) Cases.decimal_power
           (Some "12.5") ValueError);
    try reflexivity.
  left. reflexivity.
Defined.

Lemma gpx_impossible_byte_witness :
  let a := Samples.activity "course.gpx" Cases.utf16_bytes in
  let FitFile := Samples.FitFile_reads Samples.no_messages in
  let gpxpy_parse := Samples.gpxpy_reads Samples.power_only in
  Exists (fun b => never_in_utf8 (Byte.to_N b) = true) (buffer (fileobj a))
  /\ integritycheck FitFile gpxpy_parse a []
     = (Raised UnicodeDecodeError, []).
Proof.
  intros a FitFile gpxpy_parse.
  assert (H : Exists (fun b => never_in_utf8 (Byte.to_N b) = true)
                     (buffer (fileobj a)))
    by (apply Exists_cons_hd; reflexivity).
  split; [exact H|].
  exact (proj2 (gpx_impossible_byte_aborts FitFile gpxpy_parse a [] H)
               eq_refl).
Defined.

Lemma batch_witness :
  let targets := ["ride1.fit"; "lap2.txt"; "course.GPX"] in
  let FitFile := Samples.FitFile_reads Cases.crc_failure in
  let gpxpy_parse := Samples.gpxpy_reads Samples.power_only in
  Forall (readable Samples.open_read) (filter eligible targets)
  /\ fst (integritycheck FitFile gpxpy_parse
            (Samples.activity "ride1.fit" Samples.some_bytes) [])
     = Returned false
  /\ exists chunks,
      main FitFile gpxpy_parse Samples.open_read 4 targets []
      = (Returned tt,
         (([(DEBUG, "CPU count: 4")] ++ skip_notes targets)
            ++ List.concat chunks)%list)
      /\ List.length chunks = 2%nat.
Proof.
  intros targets FitFile gpxpy_parse.
  assert (R : Forall (readable Samples.open_read) (filter eligible targets)).
  { repeat constructor; exists Samples.some_bytes; reflexivity. }
  assert (C : Forall (fun a => exists b d,
                          integritycheck FitFile gpxpy_parse a []
                          = (Returned b, d))
                     (activities_of (content_of Samples.open_read) targets)).
  { repeat constructor; eexists _, _; reflexivity. }
  split; [exact R|]. split; [reflexivity|].
  destruct (batch_runs_to_the_end FitFile gpxpy_parse Samples.open_read 4
              targets [] R C) as [chunks [E F]].
  exists chunks. split; [exact E|].
  exact (eq_trans (eq_sym (Forall2_length F)) eq_refl).
Defined.

Lemma unreadable_target_witness :
  let FitFile := Samples.FitFile_reads Samples.three_records in
  let gpxpy_parse := Samples.gpxpy_reads Samples.power_only in
  Forall (readable Samples.open_read)
         (filter eligible ["ride1.fit"; "lap2.txt"])
  /\ skipped "gone.gpx" = false
  /\ main FitFile gpxpy_parse Samples.open_read 4
          (["ride1.fit"; "lap2.txt"] ++ "gone.gpx" :: ["course.GPX"]) []
     = (Raised (OtherException "FileNotFoundError" "gone.gpx"),
        [(DEBUG, "CPU count: 4"); (DEBUG, "File skipped: lap2.txt")]).
Proof.
  intros FitFile gpxpy_parse.
  assert (R : Forall (readable Samples.open_read)
                     (filter eligible ["ride1.fit"; "lap2.txt"])).
  { repeat constructor; exists Samples.some_bytes; reflexivity. }
  split; [exact R|]. split; [reflexivity|].
  exact (unreadable_target_stops_the_run FitFile gpxpy_parse
           Samples.open_read 4 ["ride1.fit"; "lap2.txt"] ["course.GPX"]
           "gone.gpx" [] _ R eq_refl eq_refl).
Defined.

Lemma script_directories_witness :
  let FitFile := Samples.FitFile_reads Samples.three_records in
  let gpxpy_parse := Samples.gpxpy_reads Samples.power_only in
  Forall (fun a => scan_failure (Cases.scandir a) = None) ["rides"; "more"]
  /\ script FitFile gpxpy_parse Samples.open_read 4 Cases.scandir
            ["rides"; "more"] []
     = main FitFile gpxpy_parse Samples.open_read 4
            ["rides/ride1.fit"; "rides/lap2.txt"; "more/course.GPX"]
            [(INFO, "3 files were found for processing.")].
Proof.
  intros FitFile gpxpy_parse.
  assert (H : Forall (fun a => scan_failure (Cases.scandir a) = None)
                     ["rides"; "more"]) by (repeat constructor).
  split; [exact H|].
  exact (script_scans_directories FitFile gpxpy_parse Samples.open_read 4
           Cases.scandir ["rides"; "more"] [] H).
Defined.

Lemma script_fallback_witness :
  let FitFile := Samples.FitFile_reads Samples.three_records in
  let gpxpy_parse := Samples.gpxpy_reads Samples.power_only in
  Forall (fun a => scan_failure (Cases.scandir a) = None) ["rides"]
  /\ is_NotADirectoryError (Cases.not_a_directory "ride1.fit") = true
  /\ script FitFile gpxpy_parse Samples.open_read 4 Cases.scandir
            (["rides"] ++ "ride1.fit" :: ["more"]) []
     = main FitFile gpxpy_parse Samples.open_read 4
            ["rides"; "ride1.fit"; "more"]
            [(INFO, "3 files were found for processing.")].
Proof.
  intros FitFile gpxpy_parse.
  assert (H : Forall (fun a => scan_failure (Cases.scandir a) = None)
                     ["rides"]) by (repeat constructor).
  split; [exact H|]. split; [reflexivity|].
  exact (script_falls_back_to_arguments FitFile gpxpy_parse
           Samples.open_read 4 Cases.scandir ["rides"] ["more"] "ride1.fit"
           [] _ H eq_refl eq_refl).
Defined.

Lemma script_scan_error_witness :
  let FitFile := Samples.FitFile_reads Samples.three_records in
  let gpxpy_parse := Samples.gpxpy_reads Samples.power_only in
  Forall (fun a => scan_failure (Cases.scandir a) = None) ["rides"]
  /\ is_NotADirectoryError (Cases.no_such_file "nowhere") = false
  /\ script FitFile gpxpy_parse Samples.open_read 4 Cases.scandir
            (["rides"] ++ "nowhere" :: ["more"]) []
     = (Raised (Cases.no_such_file "nowhere"), []).
Proof.
  intros FitFile gpxpy_parse.
  assert (H : Forall (fun a => scan_failure (Cases.scandir a) = None)
                     ["rides"]) by (repeat constructor).
  split; [exact H|]. split; [reflexivity|].
  exact (script_scan_error_escapes FitFile gpxpy_parse Samples.open_read 4
           Cases.scandir ["rides"] ["more"] "nowhere" [] _ H
           eq_refl eq_refl).
Defined.
